(** * Financial forecasting engine: forecast builder, DCF valuation, Monte Carlo driver

    A shallow embedding of [src/forecasting.py], [src/valuation.py] and
    [src/simulation.py], and the properties of the valuation core.

    Numbers.  A Python [float] is modelled by an exact rational [Q]: the
    rounding of binary64 arithmetic is not modelled, and the results of
    [+], [-], [*] and [/] are exact.  What is kept of IEEE arithmetic is
    what decides whether a call returns or raises:
    - the range of binary64 at the power operator [**]: a power too large
      for binary64 is an [OverflowError] in Python and an infinity in numpy,
      a power too small is [0.0], which is a zero divisor afterwards;
    - the three special values that numpy produces ([inf], [-inf], [nan]);
    - the difference between numpy's division (which yields them) and
      Python's own [/] on floats (which raises [ZeroDivisionError]).
    The overflow of [+], [-], [*] and [/] to an infinity and the sign of a
    zero are not modelled: a theorem that states a value holds of the
    program's floats up to rounding, and below overflow where it says so.

    Exceptions are carried by the [result] type; a [try/except] becomes a
    match on it. *)

From Stdlib Require Import QArith Qabs Qpower Lqa ZArith Lia.
From stdpp Require Import gmap strings list sorting.

Local Open Scope Q_scope.

(** * Part I: the embedding *)

(** ** Python exceptions and the error monad *)

Inductive exn : Type :=
| ValueError (msg : string)
| KeyError (key : string)
| IndexError
| ZeroDivisionError
| OverflowError.

Inductive result (A : Type) : Type :=
| Ok (a : A)
| Raise (e : exn).
Arguments Ok {A} a.
Arguments Raise {A} e.

#[global] Instance result_ret : MRet result := fun _ a => Ok a.
#[global] Instance result_bind : MBind result := fun _ _ f r =>
  match r with
  | Ok a => f a
  | Raise e => Raise e
  end.

Definition is_Ok {A} (r : result A) : Prop := exists a, r = Ok a.

(** ** Floating-point values *)

(** The value of a numpy [float64]: a finite number or a special value. *)
Inductive float : Type :=
| Fin (q : Q)
| PInf
| NInf
| NaN.

(** ** The range of binary64 *)

(** The least magnitude that rounds to an infinity, [2^1024 - 2^970], and
    the greatest magnitude that rounds to zero, [2^-1075]. *)
Definition overflow_threshold : Q := inject_Z (2 ^ 1024 - 2 ^ 970).
Definition underflow_threshold : Q := 1 # (2 ^ 1075).

(** What becomes of an exact result [v] when it is stored in a binary64:
    an infinity, a zero, or (up to rounding) [v] itself. *)
Inductive magnitude : Type :=
| ToInfinity
| ToZero
| InRange.

Definition classify (v : Q) : magnitude :=
  if Qle_bool overflow_threshold (Qabs v) then ToInfinity
  else if Qle_bool (Qabs v) underflow_threshold then ToZero
  else InRange.

(** IEEE addition on the extended values. *)
Definition fadd (x y : float) : float :=
  match x, y with
  | NaN, _ | _, NaN => NaN
  | PInf, NInf | NInf, PInf => NaN
  | PInf, _ | _, PInf => PInf
  | NInf, _ | _, NInf => NInf
  | Fin a, Fin b => Fin (a + b)
  end.

(** numpy's [a / b] on float arrays, one element: a zero divisor gives a
    signed infinity, or [nan] for [0/0], with a warning and no exception.
    [Q] has one zero, which stands for [+0.0]. *)
Definition np_true_divide (a b : Q) : float :=
  if Qeq_bool b 0 then
    match a ?= 0 with
    | Eq => NaN
    | Gt => PInf
    | Lt => NInf
    end
  else Fin (a / b).

(** numpy's [a / d] for a finite [a] and a divisor [d] that may be
    infinite. *)
Definition np_true_divide_by (a : Q) (d : float) : float :=
  match d with
  | Fin b => np_true_divide a b
  | PInf | NInf => Fin 0
  | NaN => NaN
  end.

(** [np.sum] of a float array; the empty sum is [0.0]. *)
Definition np_sum (l : list float) : float := fold_left fadd l (Fin 0).

(** Python's [a / b] on two floats. *)
Definition py_truediv (a b : Q) : result Q :=
  if Qeq_bool b 0 then Raise ZeroDivisionError else Ok (a / b).

(** Python's [x ** n] for a float [x] and an int [n >= 0]: the power of
    the C library, whose overflow Python reports as [OverflowError] and
    whose underflow is [0.0]. *)
Definition py_float_pow (x : Q) (n : Z) : result Q :=
  match classify (x ^ n) with
  | ToInfinity => Raise OverflowError
  | ToZero => Ok 0
  | InRange => Ok (x ^ n)
  end.

(** numpy's [x ** n] for a float [x] and an entry [n >= 0] of an integer
    array: an overflow is a signed infinity, with a warning and no
    exception, an underflow is [0.0]. *)
Definition np_power (x : Q) (n : Z) : float :=
  match classify (x ^ n) with
  | ToInfinity => if Qle_bool 0 (x ^ n) then PInf else NInf
  | ToZero => Fin 0
  | InRange => Fin (x ^ n)
  end.

(** Python's [range(a, b)] and numpy's [np.arange(a, b)] on integers. *)
Definition py_range (a b : Z) : list Z := seqZ a (b - a).

(** Python's two-argument [max] and [min]: the first argument is kept
    unless the second is strictly larger (resp. smaller). *)
Definition py_max (a b : Q) : Q := if Qle_bool b a then a else b.
Definition py_min (a b : Q) : Q := if Qle_bool a b then a else b.

(** ** Forecast tables *)

(** A pandas [DataFrame] of numeric columns: the row labels and the named
    columns. *)
Record DataFrame : Type := {
  index : list Z;
  columns : gmap string (list Q)
}.

(** ** [src/valuation.py] *)

Definition calc_free_cash_flow (forecast_df : DataFrame) : result (list Q) :=
  match columns forecast_df !! "FCFF"%string with
  | None => Raise (ValueError "forecast_df must contain 'FCFF' column")
  | Some col => Ok col
  end.

Definition default_cost_of_debt : Q := 0.035.
Definition default_tax_rate : Q := 0.21.

Definition wacc_calc (beta rf rm market_debt market_equity : Q)
    (cost_of_debt : option Q) (tax_rate : Q) : result Q :=
  let re := rf + beta * (rm - rf) in
  let cost_of_debt := default default_cost_of_debt cost_of_debt in
  let total := market_debt + market_equity in
  if Qle_bool total 0 then
    Raise (ValueError "market_debt + market_equity must be > 0")
  else
    wd ← py_truediv market_debt total;
    we ← py_truediv market_equity total;
    Ok (we * re + wd * cost_of_debt * (1 - tax_rate)).

Definition discount_cash_flows (fcfs : list Q) (wacc : Q) : float * list float :=
  let n := Z.of_nat (length fcfs) in
  let discount_factors := (fun i : Z => np_power (1 + wacc) i) <$> py_range 1 (n + 1) in
  let pv := np_sum (zip_with np_true_divide_by fcfs discount_factors) in
  (pv, discount_factors).

Definition terminal_value_gordon (fcff_last wacc g : Q) : result Q :=
  if Qle_bool wacc g then
    Raise (ValueError "WACC must be greater than terminal growth g")
  else py_truediv (fcff_last * (1 + g)) (wacc - g).

(** [fcfs[-1]] on a numpy array. *)
Definition getitem_last (fcfs : list Q) : result Q :=
  match last fcfs with
  | Some x => Ok x
  | None => Raise IndexError
  end.

(** [wacc] and [terminal_g] are Python floats, as annotated and as the
    Monte Carlo driver passes them: the power and the divisions on scalars
    are Python's and raise, those on arrays are numpy's. *)
Definition compute_dcf_value (forecast_df : DataFrame) (wacc terminal_g : Q)
    : result float :=
  fcfs ← calc_free_cash_flow forecast_df;
  let '(pv_fcfs, discount_factors) := discount_cash_flows fcfs wacc in
  fcff_last ← getitem_last fcfs;
  tv ← terminal_value_gordon fcff_last wacc terminal_g;
  let n := Z.of_nat (length fcfs) in
  discount ← py_float_pow (1 + wacc) n;
  pv_tv ← py_truediv tv discount;
  let enterprise_value := fadd pv_fcfs (Fin pv_tv) in
  Ok enterprise_value.

(** ** [src/forecasting.py] *)

(** A list comprehension [[f x for x in l]] whose element expression may
    raise: the first exception ends it. *)
Fixpoint list_comprehension {A B} (f : A -> result B) (l : list A) : result (list B) :=
  match l with
  | [] => Ok []
  | x :: l =>
      y ← f x;
      ys ← list_comprehension f l;
      Ok (y :: ys)
  end.

Definition project_revenue (last_value growth_rate : Q) (years : Z) : result (list Q) :=
  list_comprehension
    (fun i : Z => power ← py_float_pow (1 + growth_rate) i; Ok (last_value * power))
    (py_range 1 (years + 1)).

Definition project_margin (base_margin delta : Q) : Q := base_margin + delta.

(** Arithmetic on pandas [Series] that share one index: a scalar on the
    right, or element by element. *)
Definition series_mul (s : list Q) (c : Q) : list Q := (fun x => x * c) <$> s.
Definition series_add (s t : list Q) : list Q := zip_with Qplus s t.
Definition series_sub (s t : list Q) : list Q := zip_with Qminus s t.

(** [df.index = labels]: pandas refuses labels whose number is not the
    number of rows. *)
Definition set_index (df : DataFrame) (labels : list Z) : result DataFrame :=
  if decide (length labels = length (index df)) then
    Ok {| index := labels; columns := columns df |}
  else Raise (ValueError "Length mismatch").

Definition build_forecast (last_revenue growth ebitda_margin capex_pct dep_pct
    wc_pct tax_rate : Q) (years : Z) (start_year : option Z)
    : result DataFrame :=
  rev ← project_revenue last_revenue growth years;
  let ebitda := series_mul rev ebitda_margin in
  let dep := series_mul rev dep_pct in
  let ebit := series_sub ebitda dep in
  let nopat := series_mul ebit (1 - tax_rate) in
  let capex := series_mul rev capex_pct in
  let wc := series_mul rev wc_pct in
  let fcff := series_sub (series_sub (series_add nopat dep) capex) wc in
  let df :=
    {| index := py_range 0 (Z.of_nat (length rev));
       columns :=
         <["Revenue"%string := rev]> (
         <["EBITDA"%string := ebitda]> (
         <["Depreciation"%string := dep]> (
         <["EBIT"%string := ebit]> (
         <["NOPAT"%string := nopat]> (
         <["Capex"%string := capex]> (
         <["ΔWorkingCapital"%string := wc]> (
         <["FCFF"%string := fcff]> ∅))))))) |} in
  match start_year with
  | Some start_year =>
      let years_index := (fun i : Z => (start_year + i)%Z) <$> py_range 1 (years + 1) in
      set_index df years_index
  | None => Ok df
  end.

Definition build_scenario_from_base (last_revenue base_growth base_margin
    growth_mul margin_delta capex_mul dep_pct wc_pct tax_rate : Q)
    (years : Z) (start_year : option Z) : result DataFrame :=
  let g := base_growth * growth_mul in
  let m := base_margin + margin_delta in
  build_forecast last_revenue g m (capex_mul * 0.06) dep_pct wc_pct tax_rate
    years start_year.

(** ** [src/simulation.py] *)

(** The state of numpy's random [Generator]: the standard normal variates
    it is going to produce, and how many of them have been drawn.  A
    generator made by [np.random.default_rng()] is an arbitrary such state. *)
Record Generator : Type := {
  variates : nat -> Q;
  consumed : nat
}.

(** Code that draws from the generator and may raise. *)
Definition sim (A : Type) : Type := Generator -> result (A * Generator).

#[global] Instance sim_ret : MRet sim := fun _ a rng => Ok (a, rng).
#[global] Instance sim_bind : MBind sim := fun _ _ f m rng =>
  match m rng with
  | Ok (a, rng') => f a rng'
  | Raise e => Raise e
  end.

Definition lift {A} (r : result A) : sim A := fun rng =>
  match r with
  | Ok a => Ok (a, rng)
  | Raise e => Raise e
  end.

(** [rng.normal(loc, scale)]: numpy computes [loc + scale * z] from a
    standard normal variate [z], and rejects a negative [scale]. *)
Definition rng_normal (loc scale : Q) : sim Q := fun rng =>
  if Qle_bool 0 scale then
    Ok (loc + scale * variates rng (consumed rng),
        {| variates := variates rng; consumed := S (consumed rng) |})
  else Raise (ValueError "scale < 0").

(** [d[key]] and [d.get(key, dflt)] on a dict. *)
Definition dict_getitem (d : gmap string Q) (key : string) : result Q :=
  match d !! key with
  | Some v => Ok v
  | None => Raise (KeyError key)
  end.
Definition dict_get (d : gmap string Q) (key : string) (dflt : Q) : Q :=
  default dflt (d !! key).

(** The assumptions and discounting parameters one trial ends up using. *)
Record TrialInputs : Type := {
  t_growth : Q;
  t_ebitda_margin : Q;
  t_capex_pct : Q;
  t_dep_pct : Q;
  t_wc_pct : Q;
  t_tax_rate : Q;
  t_wacc : Q;
  t_terminal_g : Q
}.

Section Trial.
Context (base_inputs sigma_inputs : gmap string Q).
Context (years : Z) (start_year : option Z).
Context (wacc_base wacc_sigma terminal_g_base terminal_g_sigma : Q).

(** [rng.normal(base_inputs[key], sigma_inputs.get(key, 0))] *)
Definition sample_field (key : string) : sim Q :=
  loc ← lift (dict_getitem base_inputs key);
  rng_normal loc (dict_get sigma_inputs key 0).

(** The loop body up to the safety limits: the eight draws, in the order
    of the source, and the clamps. *)
Definition sample_inputs : sim TrialInputs :=
  growth ← sample_field "growth";
  ebitda_margin ← sample_field "ebitda_margin";
  capex_pct ← sample_field "capex_pct";
  dep_pct ← sample_field "dep_pct";
  wc_pct ← sample_field "wc_pct";
  tax_rate ← sample_field "tax_rate";
  wacc_draw ← rng_normal wacc_base wacc_sigma;
  let wacc := py_max 0.001 wacc_draw in
  terminal_g ← rng_normal terminal_g_base terminal_g_sigma;
  let ebitda_margin := py_max (-0.5) ebitda_margin in
  let capex_pct := py_max 0.0 capex_pct in
  let dep_pct := py_max 0.0 dep_pct in
  let wc_pct := py_max 0.0 wc_pct in
  let tax_rate := py_min (py_max 0.0 tax_rate) 1.0 in
  mret {| t_growth := growth; t_ebitda_margin := ebitda_margin;
          t_capex_pct := capex_pct; t_dep_pct := dep_pct;
          t_wc_pct := wc_pct; t_tax_rate := tax_rate;
          t_wacc := wacc; t_terminal_g := terminal_g |}.

(** The forecast of a trial. *)
Definition trial_forecast (p : TrialInputs) : result DataFrame :=
  last_revenue ← dict_getitem base_inputs "last_revenue";
  build_forecast last_revenue (t_growth p) (t_ebitda_margin p)
    (t_capex_pct p) (t_dep_pct p) (t_wc_pct p) (t_tax_rate p)
    years start_year.

(** [try: ev = compute_dcf_value(...) except Exception: ev = np.nan] *)
Definition trial_value (forecast_df : DataFrame) (p : TrialInputs) : float :=
  match compute_dcf_value forecast_df (t_wacc p) (t_terminal_g p) with
  | Ok ev => ev
  | Raise _ => NaN
  end.

(** One iteration of the loop, without the store into [vals]. *)
Definition run_trial : sim float :=
  p ← sample_inputs;
  forecast_df ← lift (trial_forecast p);
  mret (trial_value forecast_df p).

(** [for i in range(n_sims): ...; vals[i] = ev].  Every [i] is below
    [len(vals) = n_sims], so the store is always in range (out of range
    Python would raise, the list update here would do nothing).  The
    progress message printed under [verbose] is not modelled. *)
Fixpoint mc_loop (trials : list nat) (vals : list float) : sim (list float) :=
  match trials with
  | [] => mret vals
  | i :: trials =>
      ev ← run_trial;
      mc_loop trials (<[i := ev]> vals)
  end.
End Trial.

Definition run_mc_simulation (n_sims : Z) (base_inputs sigma_inputs : gmap string Q)
    (years : Z) (start_year : option Z)
    (wacc_base wacc_sigma terminal_g_base terminal_g_sigma : Q)
    (rng : Generator) : result (list float) :=
  if decide (n_sims < 0)%Z then
    Raise (ValueError "negative dimensions are not allowed")
  else
    let vals := replicate (Z.to_nat n_sims) (Fin 0) in
    match mc_loop base_inputs sigma_inputs years start_year
            wacc_base wacc_sigma terminal_g_base terminal_g_sigma
            (seq 0 (Z.to_nat n_sims)) vals rng with
    | Ok (vals, _) => Ok vals
    | Raise e => Raise e
    end.

(** Entries of a value distribution: the sentinel test is [np.isnan]. *)
Definition isnan (v : float) : bool :=
  match v with NaN => true | _ => false end.
Definition count_valid (vals : list float) : nat :=
  length (filter (fun v => isnan v = false) vals).

(** ** The formulas of the valuation engine, as the specification writes them *)


(** [FCFF[i]], rows counted from 1. *)
Definition fcff_at (fcfs : list Q) (i : nat) : Q := nth (i - 1) fcfs 0.



(** ** Results within the range of binary64 *)

(** [v] is zero or survives the storage in a binary64. *)
Definition representable (v : Q) : Prop := v == 0 \/ classify v = InRange.

(** None of the powers [x^1 .. x^n] overflows. *)
Definition no_overflow (x : Q) (n : Z) : Prop :=
  forall i, (1 <= i <= n)%Z -> classify (x ^ i) <> ToInfinity.



(** The messages of the three [ValueError]s of the valuation engine: the
    missing-column, invalid-discounting and invalid-weights errors. *)
Definition msg_missing_column : string := "forecast_df must contain 'FCFF' column".
Definition msg_invalid_discounting : string := "WACC must be greater than terminal growth g".
Definition msg_invalid_weights : string := "market_debt + market_equity must be > 0".

(** The table with the single row [FCFF = 1]. *)
Definition single_row_table : DataFrame :=
  {| index := [0%Z]; columns := {[ "FCFF"%string := [1] ]} |}.


(** The table with the FCFF column and no row. *)
Definition empty_table : DataFrame :=
  {| index := []; columns := {[ "FCFF"%string := [] ]} |}.

(** ** Forecast tables, read by cell *)

(** The value in column [name] at row [i], rows counted from 1. *)
Definition cell (df : DataFrame) (name : string) (i : nat) : option Q :=
  col ← columns df !! name; col !! (i - 1)%nat.

(** The eight line items of a forecast table. *)
Definition forecast_columns : gset string :=
  {[ "Revenue"; "EBITDA"; "Depreciation"; "EBIT"; "NOPAT"; "Capex";
     "ΔWorkingCapital"; "FCFF" ]}%string.

(** The table [build_forecast] makes of a projected revenue [rev]. *)
Definition forecast_table (ebitda_margin capex_pct dep_pct wc_pct tax_rate : Q)
    (years : Z) (start_year : option Z) (rev : list Q) : DataFrame :=
  let ebitda := series_mul rev ebitda_margin in
  let dep := series_mul rev dep_pct in
  let ebit := series_sub ebitda dep in
  let nopat := series_mul ebit (1 - tax_rate) in
  let capex := series_mul rev capex_pct in
  let wc := series_mul rev wc_pct in
  let fcff := series_sub (series_sub (series_add nopat dep) capex) wc in
  {| index :=
       match start_year with
       | Some s => (fun i : Z => (s + i)%Z) <$> py_range 1 (years + 1)
       | None => py_range 0 (Z.of_nat (length rev))
       end;
     columns :=
       <["Revenue"%string := rev]> (
       <["EBITDA"%string := ebitda]> (
       <["Depreciation"%string := dep]> (
       <["EBIT"%string := ebit]> (
       <["NOPAT"%string := nopat]> (
       <["Capex"%string := capex]> (
       <["ΔWorkingCapital"%string := wc]> (
       <["FCFF"%string := fcff]> ∅))))))) |}.

(** The free cash flow of a row in terms of its revenue. *)
Definition fcff_of_revenue (r ebitda_margin capex_pct dep_pct wc_pct tax_rate : Q) : Q :=
  (r * ebitda_margin - r * dep_pct) * (1 - tax_rate) + r * dep_pct
  - r * capex_pct - r * wc_pct.

(** ** Trials, generator states and configurations *)

(** The safety limits, as bounds on the inputs of a trial. *)
Definition within_limits (p : TrialInputs) : Prop :=
  -0.5 <= t_ebitda_margin p
  /\ 0 <= t_capex_pct p
  /\ 0 <= t_dep_pct p
  /\ 0 <= t_wc_pct p
  /\ 0 <= t_tax_rate p <= 1
  /\ 0.001 <= t_wacc p.

(** The generator after [k] more draws. *)
Definition advance (k : nat) (rng : Generator) : Generator :=
  {| variates := variates rng; consumed := k + consumed rng |}.

(** The inputs of the trial that starts in generator state [rng]: what
    [sample_inputs] returns there when it completes. *)
Definition drawn_inputs (base_inputs sigma_inputs : gmap string Q)
    (wacc_base wacc_sigma terminal_g_base terminal_g_sigma : Q) (rng : Generator)
    : TrialInputs :=
  let z k := variates rng (k + consumed rng)%nat in
  let base key := default 0 (base_inputs !! key) in
  let sigma key := dict_get sigma_inputs key 0 in
  {| t_growth := base "growth"%string + sigma "growth"%string * z 0%nat;
     t_ebitda_margin :=
       py_max (-0.5) (base "ebitda_margin"%string + sigma "ebitda_margin"%string * z 1%nat);
     t_capex_pct :=
       py_max 0.0 (base "capex_pct"%string + sigma "capex_pct"%string * z 2%nat);
     t_dep_pct :=
       py_max 0.0 (base "dep_pct"%string + sigma "dep_pct"%string * z 3%nat);
     t_wc_pct :=
       py_max 0.0 (base "wc_pct"%string + sigma "wc_pct"%string * z 4%nat);
     t_tax_rate :=
       py_min (py_max 0.0 (base "tax_rate"%string + sigma "tax_rate"%string * z 5%nat)) 1.0;
     t_wacc := py_max 0.001 (wacc_base + wacc_sigma * z 6%nat);
     t_terminal_g := terminal_g_base + terminal_g_sigma * z 7%nat |}.

(** The fields [run_mc_simulation] reads from [base_inputs]. *)
Definition required_fields : list string :=
  [ "last_revenue"; "growth"; "ebitda_margin"; "capex_pct"; "dep_pct";
    "wc_pct"; "tax_rate" ]%string.

Definition has_required_fields (base_inputs : gmap string Q) : Prop :=
  forall key, key ∈ required_fields -> is_Some (base_inputs !! key).

(** Every configured standard deviation is a standard deviation. *)
Definition sigmas_nonneg (sigma_inputs : gmap string Q) (wacc_sigma terminal_g_sigma : Q)
    : Prop :=
  (forall key v, sigma_inputs !! key = Some v -> 0 <= v)
  /\ 0 <= wacc_sigma /\ 0 <= terminal_g_sigma.

(** Equality of two float values as numbers. *)
Definition feq (x y : float) : Prop :=
  match x, y with
  | Fin a, Fin b => a == b
  | PInf, PInf | NInf, NInf | NaN, NaN => True
  | _, _ => False
  end.

(** Two results that agree: the same exception, or values related by [R]. *)
Definition result_rel {A} (R : A -> A -> Prop) (r r' : result A) : Prop :=
  match r, r' with
  | Ok a, Ok a' => R a a'
  | Raise e, Raise e' => e = e'
  | _, _ => False
  end.


(** The assumptions of the concrete scenario of the specification. *)
Definition scenario_base : gmap string Q :=
  <["last_revenue"%string := 28000]> (
  <["growth"%string := 0.08]> (
  <["ebitda_margin"%string := 0.34]> (
  <["capex_pct"%string := 0.06]> (
  <["dep_pct"%string := 0.05]> (
  <["wc_pct"%string := 0.01]> (
  <["tax_rate"%string := 0.21]> ∅)))))).

(** A generator whose variates are [-3, -2, -1, 0, 1, ...]. *)
Definition ramp_generator : Generator :=
  {| variates := fun k => inject_Z (Z.of_nat k) - 3; consumed := 0 |}.

(** In each of the first [n] trials of a run that starts in generator
    state [rng], the growth drawn compounds over the horizon without
    overflow. *)
Definition forecasts_in_range (base_inputs sigma_inputs : gmap string Q) (years : Z)
    (wacc_base wacc_sigma terminal_g_base terminal_g_sigma : Q) (rng : Generator)
    (n : nat) : Prop :=
  forall i, (i < n)%nat ->
    no_overflow
      (1 + t_growth (drawn_inputs base_inputs sigma_inputs wacc_base wacc_sigma
                       terminal_g_base terminal_g_sigma (advance (8 * i) rng)))
      years.

(** ** The degenerate case and the variance of a distribution *)



(** The statistics of a distribution are taken over its valid entries
    ([ev[~np.isnan(ev)]]); the variance is the mean squared deviation from
    the mean, and is [nan] when no entry is valid or one is infinite. *)
Definition valid_values (vals : list float) : list float :=
  filter (fun v => isnan v = false) vals.





(** ** Further notions for the properties of the whole code *)

(** [np.isfinite] on one value. *)
Definition isfinite (v : float) : bool :=
  match v with Fin _ => true | _ => false end.

(** ** [compute_cagr] of [src/forecasting.py] *)

Section Cagr.
(** Python's [x ** y] on two floats yields a float, a complex number (a
    negative base with a fractional exponent) or an error, and [- 1.0] is
    then taken of that result.  A root is not a rational function, so the
    power and the subtraction are parameters of the model, [V] being the
    type of their results; the guards and the two divisions are the
    code's. *)
Context {V : Type} (float_pow : Q -> Q -> result V) (minus_one : V -> V).

(** [vals[0]] on a list. *)
Definition getitem_first (vals : list Q) : result Q :=
  match vals with
  | x :: _ => Ok x
  | [] => Raise IndexError
  end.

Definition compute_cagr (values : list Q) (periods : Z) : result V :=
  let vals := values in
  if decide (length vals < 2)%nat then
    Raise (ValueError "need at least two values to compute CAGR")
  else
    start ← getitem_first vals;
    end_ ← getitem_last vals;
    if Qle_bool start 0 then
      Raise (ValueError "start value must be > 0 for CAGR")
    else
      ratio ← py_truediv end_ start;
      exponent ← py_truediv 1.0 (inject_Z periods);
      power ← float_pow ratio exponent;
      Ok (minus_one power).
End Cagr.

(** The messages of the two [ValueError]s of [compute_cagr]. *)
Definition msg_too_few_values : string := "need at least two values to compute CAGR".
Definition msg_start_not_positive : string := "start value must be > 0 for CAGR".

(** ** The standard deviations and the errors of a run *)

(** The standard deviations of the eight draws of a trial, in the order of
    the draws. *)
Definition draw_sigmas (sigma_inputs : gmap string Q) (wacc_sigma terminal_g_sigma : Q)
    : list Q :=
  [ dict_get sigma_inputs "growth" 0; dict_get sigma_inputs "ebitda_margin" 0;
    dict_get sigma_inputs "capex_pct" 0; dict_get sigma_inputs "dep_pct" 0;
    dict_get sigma_inputs "wc_pct" 0; dict_get sigma_inputs "tax_rate" 0;
    wacc_sigma; terminal_g_sigma ].

Definition msg_negative_dimensions : string := "negative dimensions are not allowed".

(** ** The statistics of the dashboard ([compute_and_display_mc], [src/app.py]) *)

(** Of [compute_and_display_mc] the statements that compute the tail mean
    and the probability of exceeding the market price are modelled, each as the expression of the source; the percentiles and
    the display are not.  All are evaluated on the valid entries
    [clean = ev_eur[~np.isnan(ev_eur)]], which is [valid_values]. *)

(** numpy's [x / d] for a float value [x] and a finite divisor [d], the
    zero of [Q] standing for [+0.0]. *)
Definition np_divide (x : float) (d : Q) : float :=
  match x with
  | Fin a => np_true_divide a d
  | PInf => if Qle_bool 0 d then PInf else NInf
  | NInf => if Qle_bool 0 d then NInf else PInf
  | NaN => NaN
  end.

(** [np.mean]: the sum divided by the number of entries ([nan] on an
    empty array), and [np.nanmean], the mean of the entries that are not
    [nan]. *)
Definition np_mean (l : list float) : float :=
  np_divide (np_sum l) (inject_Z (Z.of_nat (length l))).
Definition np_nanmean (l : list float) : float := np_mean (valid_values l).

(** The order [np.sort] sorts by: [-inf] first, [inf] after every finite
    value, [nan] last. *)
Definition fle_bool (x y : float) : bool :=
  match x, y with
  | _, NaN => true
  | NaN, _ => false
  | NInf, _ => true
  | _, NInf => false
  | _, PInf => true
  | PInf, _ => false
  | Fin a, Fin b => Qle_bool a b
  end.
Definition fle (x y : float) : Prop := fle_bool x y = true.
#[global] Instance fle_dec (x y : float) : Decision (fle x y) :=
  decide (fle_bool x y = true).
Definition np_sort (l : list float) : list float := merge_sort fle l.

(** [x > y] for a float value and a finite number, and [.astype(float)] on
    the boolean it gives. *)
Definition np_greater (x : float) (y : Q) : bool :=
  match x with
  | Fin a => negb (Qle_bool a y)
  | PInf => true
  | NInf | NaN => false
  end.
Definition astype_float (b : bool) : float := if b then Fin 1 else Fin 0.

(** [k = max(1, int(0.05 * len(clean)))] and
    [cvar5 = float(np.sort(clean)[:k].mean())].  The product [0.05 * n] of
    the source is a float that [int] truncates; for an array length [n]
    the result is the integer quotient of [n] by 20. *)
Definition cvar5 (ev_eur : list float) : float :=
  let clean := valid_values ev_eur in
  let k := Nat.max 1 (length clean / 20) in
  np_mean (take k (np_sort clean)).

(** [ps_array = clean / float(shares_units)] and
    [prob_above = float(np.nanmean((ps_array > market_price).astype(float)))]. *)
Definition prob_above (ev_eur : list float) (shares_units market_price : Q) : float :=
  let clean := valid_values ev_eur in
  let ps_array := (fun v => np_divide v shares_units) <$> clean in
  np_nanmean ((fun v => astype_float (np_greater v market_price)) <$> ps_array).

(** The value of a finite float. *)
Definition fval (v : float) : Q := match v with Fin q => q | _ => 0 end.

(** The sum of a list of numbers, from the right. *)
Definition Qsum (l : list Q) : Q := foldr Qplus 0 l.

(** * Part II: properties *)

(** ** Elementary facts about the primitives *)

Lemma Qle_bool_false (x y : Q) : Qle_bool x y = false <-> y < x.
Proof.
  split; intros H.
  - apply Qnot_le_lt. intros Hle. apply Qle_bool_iff in Hle. congruence.
  - destruct (Qle_bool x y) eqn:E; [|reflexivity].
    apply Qle_bool_iff in E. exfalso. apply (Qlt_not_le _ _ H E).
Qed.

Lemma Qeq_bool_false (x y : Q) : Qeq_bool x y = false <-> ~ x == y.
Proof.
  split; [apply Qeq_bool_neq|].
  intros H. destruct (Qeq_bool x y) eqn:E; [|reflexivity].
  apply Qeq_bool_eq in E. contradiction.
Qed.

Lemma py_truediv_Ok (a b : Q) : ~ b == 0 -> py_truediv a b = Ok (a / b).
Proof. intros H. unfold py_truediv. apply Qeq_bool_false in H. now rewrite H. Qed.

Lemma py_truediv_zero (a b : Q) : b == 0 -> py_truediv a b = Raise ZeroDivisionError.
Proof. intros H. unfold py_truediv. apply Qeq_bool_iff in H. now rewrite H. Qed.

Lemma np_true_divide_finite (a b : Q) : ~ b == 0 -> np_true_divide a b = Fin (a / b).
Proof. intros H. unfold np_true_divide. apply Qeq_bool_false in H. now rewrite H. Qed.

Lemma getitem_last_nonempty (fcfs : list Q) :
  fcfs <> [] -> getitem_last fcfs = Ok (nth (length fcfs - 1) fcfs 0).
Proof.
  intros Hne. unfold getitem_last. rewrite last_lookup, nth_lookup.
  replace (length fcfs - 1)%nat with (Nat.pred (length fcfs)) by lia.
  destruct (fcfs !! Nat.pred (length fcfs)) eqn:E; [reflexivity|].
  apply lookup_ge_None in E. destruct fcfs; [congruence|simpl in E; lia].
Qed.

Lemma py_range_from_1 (n : Z) : py_range 1 (n + 1) = seqZ 1 n.
Proof. unfold py_range. f_equal. lia. Qed.

(** ** The range of binary64 and the two powers *)

Lemma underflow_lt_overflow : underflow_threshold < overflow_threshold.
Proof. vm_compute. reflexivity. Qed.

Lemma classify_ToInfinity (v : Q) :
  classify v = ToInfinity <-> overflow_threshold <= Qabs v.
Proof.
  unfold classify. destruct (Qle_bool overflow_threshold (Qabs v)) eqn:E.
  - apply Qle_bool_iff in E. tauto.
  - apply Qle_bool_false in E. split.
    + destruct (Qle_bool (Qabs v) underflow_threshold); discriminate.
    + intros Hle. exfalso. apply (Qlt_not_le _ _ E Hle).
Qed.

Lemma classify_ToZero (v : Q) :
  classify v = ToZero <-> Qabs v <= underflow_threshold.
Proof.
  unfold classify. destruct (Qle_bool overflow_threshold (Qabs v)) eqn:E.
  - apply Qle_bool_iff in E. split; [discriminate|]. intros Hle. exfalso.
    pose proof underflow_lt_overflow as H.
    apply (Qlt_not_le _ _ H). now apply Qle_trans with (Qabs v).
  - destruct (Qle_bool (Qabs v) underflow_threshold) eqn:E'.
    + apply Qle_bool_iff in E'. tauto.
    + apply Qle_bool_false in E'. split; [discriminate|].
      intros Hle. exfalso. apply (Qlt_not_le _ _ E' Hle).
Qed.

Lemma classify_InRange (v : Q) :
  classify v = InRange
  <-> underflow_threshold < Qabs v /\ Qabs v < overflow_threshold.
Proof.
  unfold classify. destruct (Qle_bool overflow_threshold (Qabs v)) eqn:E.
  - apply Qle_bool_iff in E. split; [discriminate|]. intros [_ Hlt]. exfalso.
    apply (Qlt_not_le _ _ Hlt E).
  - apply Qle_bool_false in E.
    destruct (Qle_bool (Qabs v) underflow_threshold) eqn:E'.
    + apply Qle_bool_iff in E'. split; [discriminate|]. intros [Hlt _]. exfalso.
      apply (Qlt_not_le _ _ Hlt E').
    + apply Qle_bool_false in E'. tauto.
Qed.

#[global] Instance classify_comp : Proper (Qeq ==> eq) classify.
Proof.
  intros v v' Hv. unfold classify.
  assert (E1 : Qle_bool overflow_threshold (Qabs v) = Qle_bool overflow_threshold (Qabs v'))
    by now rewrite Hv.
  assert (E2 : Qle_bool (Qabs v) underflow_threshold = Qle_bool (Qabs v') underflow_threshold)
    by now rewrite Hv.
  now rewrite E1, E2.
Qed.

Lemma classify_zero (v : Q) : v == 0 -> classify v = ToZero.
Proof. intros ->. reflexivity. Qed.

Lemma classify_nonzero (v : Q) : classify v = InRange -> ~ v == 0.
Proof. intros H E. rewrite (classify_zero v E) in H. discriminate H. Qed.

Lemma classify_one : classify 1 = InRange.
Proof. vm_compute. reflexivity. Qed.

Lemma py_float_pow_in_range (x : Q) (n : Z) :
  classify (x ^ n) = InRange -> py_float_pow x n = Ok (x ^ n).
Proof. intros H. unfold py_float_pow. now rewrite H. Qed.

Lemma np_power_in_range (x : Q) (n : Z) :
  classify (x ^ n) = InRange -> np_power x n = Fin (x ^ n).
Proof. intros H. unfold np_power. now rewrite H. Qed.

(** The three outcomes of Python's power. *)
Lemma py_float_pow_cases (x : Q) (n : Z) :
  (classify (x ^ n) = ToInfinity /\ py_float_pow x n = Raise OverflowError)
  \/ (classify (x ^ n) = ToZero /\ py_float_pow x n = Ok 0)
  \/ (classify (x ^ n) = InRange /\ py_float_pow x n = Ok (x ^ n)).
Proof. unfold py_float_pow. destruct (classify (x ^ n)); auto. Qed.

(** A power that is zero or in range is computed as it is. *)
Lemma py_float_pow_representable (x : Q) (n : Z) :
  representable (x ^ n) ->
  exists power, py_float_pow x n = Ok power /\ power == x ^ n.
Proof.
  intros [Hz | Hr].
  - exists 0. unfold py_float_pow. rewrite (classify_zero _ Hz). now split.
  - exists (x ^ n). rewrite (py_float_pow_in_range _ _ Hr). now split.
Qed.

#[global] Arguments classify : simpl never.
#[global] Arguments py_float_pow : simpl never.
#[global] Arguments np_power : simpl never.

(** ** Discounting *)

(** On non-zero divisors numpy's sum of quotients is the exact one. *)
Lemma np_sum_quotients (l dfs : list Q) (acc : Q) :
  Forall (fun d => ~ d == 0) dfs ->
  fold_left fadd (zip_with np_true_divide l dfs) (Fin acc)
  = Fin (fold_left Qplus (zip_with Qdiv l dfs) acc).
Proof.
  revert dfs acc. induction l as [|x l IH]; intros [|d dfs] acc Hd; try reflexivity.
  inversion Hd; subst. simpl.
  rewrite np_true_divide_finite by assumption. simpl. now apply IH.
Qed.

#[global] Arguments discount_cash_flows : simpl never.


Lemma fold_left_Qplus_acc (l : list Q) (acc : Q) :
  fold_left Qplus l acc == acc + fold_left Qplus l 0.
Proof.
  revert acc. induction l as [|x l IH]; intros acc; simpl; [ring|].
  rewrite (IH (acc + x)), (IH (0 + x)). ring.
Qed.



(** When every discount factor is in range they are the exact powers. *)
Lemma discount_factors_in_range (wacc : Q) (n : nat) :
  (forall i, (1 <= i <= n)%nat -> classify ((1 + wacc) ^ Z.of_nat i) = InRange) ->
  (fun i : Z => np_power (1 + wacc) i) <$> seqZ 1 (Z.of_nat n)
  = Fin <$> ((fun i : Z => (1 + wacc) ^ i) <$> seqZ 1 (Z.of_nat n))
  /\ Forall (fun d => ~ d == 0) ((fun i : Z => (1 + wacc) ^ i) <$> seqZ 1 (Z.of_nat n)).
Proof.
  intros H.
  assert (Hr : forall j : Z, (1 <= j < 1 + Z.of_nat n)%Z ->
                 classify ((1 + wacc) ^ j) = InRange).
  { intros j Hj. replace j with (Z.of_nat (Z.to_nat j)) by lia. apply H. lia. }
  split.
  - rewrite <- list_fmap_compose. apply Forall_fmap_ext_1, Forall_seqZ.
    intros j Hj. simpl. now apply np_power_in_range, Hr.
  - apply Forall_fmap, Forall_seqZ. intros j Hj. simpl.
    now apply classify_nonzero, Hr.
Qed.


(** ** Valuation engine *)

(** One step of the error monad on a known result. *)
Ltac bind_step := unfold mbind, result_bind; cbv beta iota.

(** What [compute_dcf_value] does on a table whose FCFF column is not
    empty: the guard of the terminal value, then the power and the two
    divisions. *)
Lemma compute_dcf_value_nonempty (df : DataFrame) (fcfs : list Q) (wacc g : Q) :
  columns df !! "FCFF"%string = Some fcfs -> fcfs <> [] ->
  compute_dcf_value df wacc g =
    if Qle_bool wacc g then Raise (ValueError msg_invalid_discounting)
    else
      tv ← py_truediv (fcff_at fcfs (length fcfs) * (1 + g)) (wacc - g);
      discount ← py_float_pow (1 + wacc) (Z.of_nat (length fcfs));
      pv_tv ← py_truediv tv discount;
      Ok (fadd (fst (discount_cash_flows fcfs wacc)) (Fin pv_tv)).
Proof.
  intros Hcol Hne. unfold compute_dcf_value, calc_free_cash_flow.
  rewrite Hcol. bind_step.
  destruct (discount_cash_flows fcfs wacc) as [pv factors]. cbn [fst].
  rewrite (getitem_last_nonempty _ Hne). bind_step.
  unfold terminal_value_gordon, fcff_at.
  destruct (Qle_bool wacc g); reflexivity.
Qed.

Lemma compute_dcf_value_empty (df : DataFrame) (wacc g : Q) :
  columns df !! "FCFF"%string = Some [] ->
  compute_dcf_value df wacc g = Raise IndexError.
Proof.
  intros Hcol. unfold compute_dcf_value, calc_free_cash_flow.
  rewrite Hcol. reflexivity.
Qed.

Lemma compute_dcf_value_no_column (df : DataFrame) (wacc g : Q) :
  columns df !! "FCFF"%string = None ->
  compute_dcf_value df wacc g = Raise (ValueError msg_missing_column).
Proof.
  intros Hcol. unfold compute_dcf_value, calc_free_cash_flow. now rewrite Hcol.
Qed.

(** The outcome of [compute_dcf_value] on a non-empty FCFF column, by
    cases on the discounting parameters: the guard, then what becomes of
    the power [(1 + wacc)^N]. *)
Lemma compute_dcf_value_nonempty_cases (df : DataFrame) (fcfs : list Q) (wacc g : Q) :
  columns df !! "FCFF"%string = Some fcfs -> fcfs <> [] ->
  (wacc <= g /\ compute_dcf_value df wacc g = Raise (ValueError msg_invalid_discounting))
  \/ (g < wacc /\ classify ((1 + wacc) ^ Z.of_nat (length fcfs)) = ToInfinity
      /\ compute_dcf_value df wacc g = Raise OverflowError)
  \/ (g < wacc /\ classify ((1 + wacc) ^ Z.of_nat (length fcfs)) = ToZero
      /\ compute_dcf_value df wacc g = Raise ZeroDivisionError)
  \/ (g < wacc /\ classify ((1 + wacc) ^ Z.of_nat (length fcfs)) = InRange
      /\ exists ev, compute_dcf_value df wacc g = Ok ev).
Proof.
  intros Hcol Hne. rewrite (compute_dcf_value_nonempty _ _ _ _ Hcol Hne).
  destruct (Qlt_le_dec g wacc) as [Hlt | Hle].
  - right. rewrite (proj2 (Qle_bool_false _ _) Hlt).
    rewrite py_truediv_Ok by (intros E; lra). bind_step.
    destruct (py_float_pow_cases (1 + wacc) (Z.of_nat (length fcfs)))
      as [[Hc ->] | [[Hc ->] | [Hc ->]]].
    + left. auto.
    + right. left. split; [assumption|]. split; [assumption|].
      now rewrite py_truediv_zero.
    + right. right. split; [assumption|]. split; [assumption|].
      rewrite py_truediv_Ok by now apply classify_nonzero.
      eexists; reflexivity.
  - left. split; [assumption|]. apply Qle_bool_iff in Hle. now rewrite Hle.
Qed.





(** C3.  For a table with a non-empty FCFF column, [compute_dcf_value]
    raises the invalid-discounting error exactly when
    [wacc <= terminal_g], and then returns no enterprise value. *)
Theorem compute_dcf_value_invalid_discounting (df : DataFrame) (fcfs : list Q)
    (wacc terminal_g : Q) :
  columns df !! "FCFF"%string = Some fcfs ->
  fcfs <> [] ->
  (compute_dcf_value df wacc terminal_g = Raise (ValueError msg_invalid_discounting)
   <-> wacc <= terminal_g)
  /\ (wacc <= terminal_g -> ~ is_Ok (compute_dcf_value df wacc terminal_g)).
Proof.
  intros Hcol Hne.
  destruct (compute_dcf_value_nonempty_cases df fcfs wacc terminal_g Hcol Hne)
    as [(Hle & ->) | [(Hlt & _ & ->) | [(Hlt & _ & ->) | (Hlt & _ & ev & ->)]]].
  - split; [tauto|]. intros _ [v Hv]. discriminate Hv.
  - split; [split; [discriminate|]|]; intros Hle; exfalso;
      apply (Qlt_not_le _ _ Hlt Hle).
  - split; [split; [discriminate|]|]; intros Hle; exfalso;
      apply (Qlt_not_le _ _ Hlt Hle).
  - split; [split; [discriminate|]|]; intros Hle; exfalso;
      apply (Qlt_not_le _ _ Hlt Hle).
Qed.

Lemma compute_dcf_value_invalid_discounting_witness :
  columns single_row_table !! "FCFF"%string = Some [1]
  /\ [1] <> []
  /\ 0.02 <= 0.025
  /\ compute_dcf_value single_row_table 0.02 0.025
     = Raise (ValueError msg_invalid_discounting).
Proof.
  assert (H1 : columns single_row_table !! "FCFF"%string = Some [1]) by reflexivity.
  assert (H2 : [1] <> []) by discriminate.
  assert (H3 : 0.02 <= 0.025) by discriminate.
  refine (conj H1 (conj H2 (conj H3 _))).
  exact (proj2 (proj1 (compute_dcf_value_invalid_discounting
                         single_row_table [1] 0.02 0.025 H1 H2)) H3).
Defined.

(** C10.  On a table that has the FCFF column, [compute_dcf_value] fails
    with the out-of-range [IndexError] exactly when the column has no row;
    that error is neither the missing-column nor the invalid-discounting
    error, and with at least one row it cannot occur. *)
Theorem compute_dcf_value_empty_table (df : DataFrame) (fcfs : list Q)
    (wacc terminal_g : Q) :
  columns df !! "FCFF"%string = Some fcfs ->
  (fcfs = [] ->
     compute_dcf_value df wacc terminal_g = Raise IndexError
     /\ compute_dcf_value df wacc terminal_g <> Raise (ValueError msg_missing_column)
     /\ compute_dcf_value df wacc terminal_g <> Raise (ValueError msg_invalid_discounting))
  /\ (fcfs <> [] -> compute_dcf_value df wacc terminal_g <> Raise IndexError).
Proof.
  intros Hcol. split.
  - intros ->. rewrite (compute_dcf_value_empty _ _ _ Hcol).
    repeat split; discriminate.
  - intros Hne.
    destruct (compute_dcf_value_nonempty_cases df fcfs wacc terminal_g Hcol Hne)
      as [(_ & ->) | [(_ & _ & ->) | [(_ & _ & ->) | (_ & _ & ev & ->)]]];
      discriminate.
Qed.

Lemma compute_dcf_value_empty_table_witness :
  columns empty_table !! "FCFF"%string = Some []
  /\ compute_dcf_value empty_table 0.075 0.025 = Raise IndexError
  /\ columns single_row_table !! "FCFF"%string = Some [1]
  /\ [1] <> []
  /\ compute_dcf_value single_row_table 0.075 0.025 <> Raise IndexError.
Proof.
  assert (H1 : columns empty_table !! "FCFF"%string = Some []) by reflexivity.
  assert (H2 : columns single_row_table !! "FCFF"%string = Some [1]) by reflexivity.
  assert (H3 : [1] <> []) by discriminate.
  refine (conj H1 (conj _ (conj H2 (conj H3 _)))).
  - exact (proj1 (proj1 (compute_dcf_value_empty_table empty_table [] 0.075 0.025 H1)
                    eq_refl)).
  - exact (proj2 (compute_dcf_value_empty_table single_row_table [1] 0.075 0.025 H2) H3).
Defined.






(** C9.  With [market_debt + market_equity > 0], [wacc_calc] returns
    [we * re + wd * cost_of_debt * (1 - tax_rate)] for the CAPM cost of
    equity [re] and the market-value weights [wd], [we], the cost of debt
    being 0.035 when none is given; it raises the invalid-weights error
    exactly when [market_debt + market_equity <= 0]. *)
Theorem wacc_calc_spec (beta rf rm market_debt market_equity : Q)
    (cost_of_debt : option Q) (tax_rate : Q) :
  let total := market_debt + market_equity in
  let re := rf + beta * (rm - rf) in
  let wd := market_debt / total in
  let we := market_equity / total in
  let kd := match cost_of_debt with Some c => c | None => 0.035 end in
  (0 < total ->
   exists w, wacc_calc beta rf rm market_debt market_equity cost_of_debt tax_rate = Ok w
             /\ w == we * re + wd * kd * (1 - tax_rate))
  /\ (wacc_calc beta rf rm market_debt market_equity cost_of_debt tax_rate
       = Raise (ValueError msg_invalid_weights)
      <-> total <= 0).
Proof.
  intros total re wd we kd. unfold wacc_calc. fold total. fold re.
  destruct (Qle_bool total 0) eqn:E.
  - apply Qle_bool_iff in E. split; [|tauto].
    intros Hpos. exfalso. apply (Qlt_not_le _ _ Hpos E).
  - apply Qle_bool_false in E.
    rewrite !py_truediv_Ok by (intros E'; lra). bind_step. split.
    + intros _. eexists; split; [reflexivity|].
      destruct cost_of_debt; reflexivity.
    + split; [discriminate|]. intros Hle. exfalso. apply (Qlt_not_le _ _ E Hle).
Qed.

Lemma wacc_calc_spec_witness :
  0 < 100 + 300
  /\ exists w, wacc_calc 1.2 0.03 0.08 100 300 None 0.21 = Ok w
               /\ w == 300 / (100 + 300) * (0.03 + 1.2 * (0.08 - 0.03))
                       + 100 / (100 + 300) * 0.035 * (1 - 0.21).
Proof.
  assert (H : 0 < 100 + 300) by reflexivity.
  exact (conj H (proj1 (wacc_calc_spec 1.2 0.03 0.08 100 300 None 0.21) H)).
Defined.

(** ** Forecast builder *)

Lemma list_comprehension_Ok {A B} (f : A -> result B) (l : list A) (ys : list B) :
  list_comprehension f l = Ok ys <-> Forall2 (fun x y => f x = Ok y) l ys.
Proof.
  revert ys. induction l as [|x l IH]; intros ys; cbn [list_comprehension].
  - split.
    + intros [= <-]. constructor.
    + intros H. inversion H. reflexivity.
  - unfold mbind, result_bind. split.
    + destruct (f x) as [y|e] eqn:Hy; [|discriminate].
      destruct (list_comprehension f l) as [ys'|e] eqn:Hys; [|discriminate].
      intros [= <-]. constructor; [assumption|]. now apply IH.
    + intros H. inversion H as [|? y ? ys' Hy Hys]; subst.
      rewrite Hy. apply IH in Hys. now rewrite Hys.
Qed.

Lemma list_comprehension_Raise {A B} (f : A -> result B) (l : list A) (e : exn) :
  list_comprehension f l = Raise e -> exists x, x ∈ l /\ f x = Raise e.
Proof.
  induction l as [|x l IH]; cbn [list_comprehension]; [discriminate|].
  unfold mbind, result_bind.
  destruct (f x) as [y|e'] eqn:Hy.
  - destruct (list_comprehension f l) as [ys|e'] eqn:Hys; [discriminate|].
    intros [= ->]. destruct (IH eq_refl) as (x' & Hin & Hx').
    exists x'. split; [now right|assumption].
  - intros [= ->]. exists x. split; [left|assumption].
Qed.

(** The revenue of year [i], for the power Python computed. *)
Lemma project_revenue_Ok_inv (last_value growth_rate : Q) (years : Z) (rev : list Q) :
  project_revenue last_value growth_rate years = Ok rev ->
  length rev = Z.to_nat years
  /\ forall i, (1 <= i <= Z.to_nat years)%nat ->
       exists power,
         py_float_pow (1 + growth_rate) (Z.of_nat i) = Ok power
         /\ rev !! (i - 1)%nat = Some (last_value * power).
Proof.
  unfold project_revenue. rewrite py_range_from_1. intros H.
  apply list_comprehension_Ok in H.
  pose proof (Forall2_length _ _ _ H) as Hlen. rewrite length_seqZ in Hlen.
  split; [congruence|]. intros i Hi.
  destruct (lookup_lt_is_Some_2 rev (i - 1)) as [r Hr]; [lia|].
  assert (Hseq : seqZ 1 years !! (i - 1)%nat = Some (Z.of_nat i)).
  { apply lookup_seqZ. lia. }
  pose proof (Forall2_lookup_lr _ _ _ _ _ _ H Hseq Hr) as Hf.
  unfold mbind, result_bind in Hf.
  destruct (py_float_pow (1 + growth_rate) (Z.of_nat i)) as [power|e]; [|discriminate Hf].
  injection Hf as <-. now exists power.
Qed.

(** [project_revenue] fails exactly when a power overflows, with Python's
    [OverflowError]. *)
Lemma project_revenue_Raise (last_value growth_rate : Q) (years : Z) (e : exn) :
  project_revenue last_value growth_rate years = Raise e ->
  e = OverflowError
  /\ exists i, (1 <= i <= years)%Z /\ classify ((1 + growth_rate) ^ i) = ToInfinity.
Proof.
  unfold project_revenue. rewrite py_range_from_1. intros H.
  apply list_comprehension_Raise in H as (i & Hin & Hi).
  apply elem_of_seqZ in Hin. unfold mbind, result_bind in Hi.
  destruct (py_float_pow_cases (1 + growth_rate) i) as [[Hc E] | [[Hc E] | [Hc E]]];
    rewrite E in Hi; try discriminate Hi.
  injection Hi as <-. split; [reflexivity|].
  exists i. split; [lia|assumption].
Qed.

Lemma project_revenue_Ok (last_value growth_rate : Q) (years : Z) :
  no_overflow (1 + growth_rate) years ->
  is_Ok (project_revenue last_value growth_rate years).
Proof.
  intros Hno. destruct (project_revenue last_value growth_rate years) as [rev|e] eqn:E;
    [now exists rev|].
  apply project_revenue_Raise in E as (_ & i & Hi & Hc). now destruct (Hno i Hi).
Qed.

Lemma project_revenue_Ok_iff (last_value growth_rate : Q) (years : Z) :
  is_Ok (project_revenue last_value growth_rate years)
  <-> no_overflow (1 + growth_rate) years.
Proof.
  split; [|apply project_revenue_Ok].
  intros [rev Hrev] i Hi Hc.
  destruct (project_revenue_Ok_inv _ _ _ _ Hrev) as [_ Hrows].
  destruct (Hrows (Z.to_nat i) ltac:(lia)) as (power & Hp & _).
  rewrite Z2Nat.id in Hp by lia. unfold py_float_pow in Hp. rewrite Hc in Hp.
  discriminate Hp.
Qed.

Lemma representable_no_overflow (x : Q) (years : Z) :
  (forall i, (1 <= i <= Z.to_nat years)%nat -> representable (x ^ Z.of_nat i)) ->
  no_overflow x years.
Proof.
  intros H i Hi Hc. destruct (H (Z.to_nat i) ltac:(lia)) as [Hz | Hr];
    rewrite Z2Nat.id in * by lia.
  - rewrite (classify_zero _ Hz) in Hc. discriminate Hc.
  - congruence.
Qed.

Lemma lookup_series_mul (s : list Q) (c : Q) (k : nat) :
  series_mul s c !! k = (fun x => x * c) <$> s !! k.
Proof. apply list_lookup_fmap. Qed.

Lemma length_series_mul (s : list Q) (c : Q) : length (series_mul s c) = length s.
Proof. apply length_fmap. Qed.

Section Forecast.
Context (last_revenue growth ebitda_margin capex_pct dep_pct wc_pct tax_rate : Q).
Context (years : Z) (start_year : option Z).
Context (rev : list Q).

#[local] Abbreviation ebitda := (series_mul rev ebitda_margin).
#[local] Abbreviation dep := (series_mul rev dep_pct).
#[local] Abbreviation ebit := (series_sub ebitda dep).
#[local] Abbreviation nopat := (series_mul ebit (1 - tax_rate)).
#[local] Abbreviation capex := (series_mul rev capex_pct).
#[local] Abbreviation wc := (series_mul rev wc_pct).
#[local] Abbreviation fcff := (series_sub (series_sub (series_add nopat dep) capex) wc).

#[local] Abbreviation forecast_table' :=
  (forecast_table ebitda_margin capex_pct dep_pct wc_pct tax_rate years start_year rev).

Lemma forecast_lengths :
  length ebitda = length rev
  /\ length dep = length rev /\ length ebit = length rev
  /\ length nopat = length rev /\ length capex = length rev
  /\ length wc = length rev /\ length fcff = length rev.
Proof.
  unfold series_sub, series_add.
  rewrite ?length_zip_with, ?length_series_mul, ?length_zip_with,
    ?length_series_mul.
  repeat split; lia.
Qed.

(** A row of the eight series, from its revenue. *)
Lemma forecast_row (k : nat) (r : Q) :
  rev !! k = Some r ->
  ebitda !! k = Some (r * ebitda_margin)
  /\ dep !! k = Some (r * dep_pct)
  /\ ebit !! k = Some (r * ebitda_margin - r * dep_pct)
  /\ nopat !! k = Some ((r * ebitda_margin - r * dep_pct) * (1 - tax_rate))
  /\ capex !! k = Some (r * capex_pct)
  /\ wc !! k = Some (r * wc_pct)
  /\ fcff !! k
     = Some ((r * ebitda_margin - r * dep_pct) * (1 - tax_rate) + r * dep_pct
             - r * capex_pct - r * wc_pct).
Proof.
  intros Hrev. unfold series_sub, series_add.
  rewrite ?lookup_zip_with, ?lookup_series_mul, ?lookup_zip_with,
    ?lookup_series_mul, ?lookup_zip_with, ?lookup_series_mul, Hrev.
  repeat split; reflexivity.
Qed.

(** The FCFF column, entry by entry. *)
Lemma forecast_fcff : fcff = (fun r => fcff_of_revenue r ebitda_margin capex_pct dep_pct
                                         wc_pct tax_rate) <$> rev.
Proof.
  apply list_eq. intros k. rewrite list_lookup_fmap.
  destruct (rev !! k) as [r|] eqn:Hr.
  - now rewrite (proj2 (proj2 (proj2 (proj2 (proj2 (proj2 (forecast_row k r Hr))))))).
  - apply lookup_ge_None. apply lookup_ge_None in Hr.
    pose proof forecast_lengths as (_ & _ & _ & _ & _ & _ & L). lia.
Qed.

(** The cells of row [i] of the table, from the revenue of the row. *)
Lemma forecast_table_cells (i : nat) (r : Q) :
  rev !! (i - 1)%nat = Some r ->
  cell forecast_table' "Revenue" i = Some r
  /\ cell forecast_table' "EBITDA" i = Some (r * ebitda_margin)
  /\ cell forecast_table' "Depreciation" i = Some (r * dep_pct)
  /\ cell forecast_table' "EBIT" i = Some (r * ebitda_margin - r * dep_pct)
  /\ cell forecast_table' "NOPAT" i
     = Some ((r * ebitda_margin - r * dep_pct) * (1 - tax_rate))
  /\ cell forecast_table' "Capex" i = Some (r * capex_pct)
  /\ cell forecast_table' "ΔWorkingCapital" i = Some (r * wc_pct)
  /\ cell forecast_table' "FCFF" i
     = Some ((r * ebitda_margin - r * dep_pct) * (1 - tax_rate) + r * dep_pct
             - r * capex_pct - r * wc_pct).
Proof.
  intros Hr.
  pose proof (forecast_row (i - 1) r Hr) as (R2 & R3 & R4 & R5 & R6 & R7 & R8).
  unfold cell, forecast_table. cbv zeta. cbn [columns].
  repeat split;
    match goal with
    | |- context [(_ !! ?name)] =>
        rewrite ?lookup_insert_ne by discriminate; rewrite lookup_insert_eq
    end; cbn [mbind option_bind]; assumption.
Qed.

Hypothesis Hrev : project_revenue last_revenue growth years = Ok rev.

Lemma build_forecast_Ok :
  build_forecast last_revenue growth ebitda_margin capex_pct dep_pct wc_pct
    tax_rate years start_year
  = Ok forecast_table'.
Proof using Hrev.
  unfold build_forecast, forecast_table. cbv zeta. rewrite Hrev. bind_step.
  destruct start_year as [s|]; [|reflexivity].
  unfold set_index. cbn [index columns].
  rewrite decide_True; [reflexivity|].
  rewrite length_fmap, py_range_from_1, length_seqZ.
  unfold py_range. rewrite length_seqZ.
  rewrite (proj1 (project_revenue_Ok_inv _ _ _ _ Hrev)). lia.
Qed.
End Forecast.

(** [build_forecast] returns exactly when the revenue projection does, and
    raises what it raises. *)
Lemma build_forecast_inv (last_revenue growth ebitda_margin capex_pct dep_pct
    wc_pct tax_rate : Q) (years : Z) (start_year : option Z) (df : DataFrame) :
  build_forecast last_revenue growth ebitda_margin capex_pct dep_pct wc_pct
    tax_rate years start_year = Ok df ->
  exists rev,
    project_revenue last_revenue growth years = Ok rev
    /\ df = forecast_table ebitda_margin capex_pct dep_pct wc_pct tax_rate years
              start_year rev.
Proof.
  intros H.
  destruct (project_revenue last_revenue growth years) as [rev|e] eqn:Hrev.
  - exists rev. split; [reflexivity|].
    rewrite (build_forecast_Ok _ _ ebitda_margin capex_pct dep_pct wc_pct tax_rate
               _ start_year _ Hrev) in H. now injection H.
  - unfold build_forecast in H. rewrite Hrev in H. discriminate H.
Qed.


Lemma build_forecast_total (last_revenue growth ebitda_margin capex_pct dep_pct
    wc_pct tax_rate : Q) (years : Z) (start_year : option Z) :
  no_overflow (1 + growth) years ->
  is_Ok (build_forecast last_revenue growth ebitda_margin capex_pct dep_pct
           wc_pct tax_rate years start_year).
Proof.
  intros Hno.
  destruct (project_revenue_Ok last_revenue growth years Hno) as [rev Hrev].
  rewrite (build_forecast_Ok _ _ ebitda_margin capex_pct dep_pct wc_pct tax_rate
             _ start_year _ Hrev). eexists; reflexivity.
Qed.

(** Reads a named column out of a table given by its insertions. *)
Ltac column_lookup :=
  cbn [columns forecast_table];
  rewrite ?lookup_insert_ne by discriminate; apply lookup_insert_eq.

(** The FCFF column of a forecast. *)
Lemma build_forecast_fcff (last_revenue growth ebitda_margin capex_pct dep_pct
    wc_pct tax_rate : Q) (years : Z) (start_year : option Z) (df : DataFrame) :
  build_forecast last_revenue growth ebitda_margin capex_pct dep_pct wc_pct
    tax_rate years start_year = Ok df ->
  exists rev,
    project_revenue last_revenue growth years = Ok rev
    /\ columns df !! "FCFF"%string
       = Some ((fun r => fcff_of_revenue r ebitda_margin capex_pct dep_pct wc_pct
                           tax_rate) <$> rev)
    /\ length rev = Z.to_nat years.
Proof.
  intros H. apply build_forecast_inv in H as (rev & Hrev & ->).
  exists rev. split; [assumption|]. split.
  - rewrite <- forecast_fcff. column_lookup.
  - exact (proj1 (project_revenue_Ok_inv _ _ _ _ Hrev)).
Qed.

(** The revenue of a row whose power is zero or in range. *)
Lemma project_revenue_row (last_value growth_rate : Q) (years : Z) (rev : list Q)
    (i : nat) :
  project_revenue last_value growth_rate years = Ok rev ->
  (1 <= i <= Z.to_nat years)%nat ->
  representable ((1 + growth_rate) ^ Z.of_nat i) ->
  exists r, rev !! (i - 1)%nat = Some r
            /\ r == last_value * (1 + growth_rate) ^ Z.of_nat i.
Proof.
  intros Hrev Hi Hrep.
  destruct (proj2 (project_revenue_Ok_inv _ _ _ _ Hrev) i Hi) as (power & Hp & Hr).
  destruct (py_float_pow_representable _ _ Hrep) as (power' & Hp' & Hval).
  rewrite Hp in Hp'. injection Hp' as <-.
  eexists. split; [exact Hr|]. now rewrite Hval.
Qed.

(** Discharges a condition on the rows [1..n] of a small table. *)
Ltac each_row i :=
  do 8 (destruct i as [|i]; [try lia; try (vm_compute; reflexivity)|]); lia.

(** C8.  [build_scenario_from_base] returns exactly the table of
    [build_forecast] for growth [base_growth * growth_mul], margin
    [base_margin + margin_delta] and capex ratio [capex_mul * 0.06], the
    other assumptions passed through unchanged; so, when the powers of the
    adjusted growth are within range, at each row the revenue compounds at
    the adjusted growth, EBITDA takes the adjusted margin and Capex is
    [capex_mul * 0.06] of the revenue, whatever the capex ratio of the base
    scenario was. *)
Theorem build_scenario_from_base_spec (last_revenue base_growth base_margin
    growth_mul margin_delta capex_mul dep_pct wc_pct tax_rate : Q)
    (years : Z) (start_year : option Z) :
  build_scenario_from_base last_revenue base_growth base_margin growth_mul
    margin_delta capex_mul dep_pct wc_pct tax_rate years start_year
  = build_forecast last_revenue (base_growth * growth_mul)
      (base_margin + margin_delta) (capex_mul * 0.06) dep_pct wc_pct tax_rate
      years start_year
  /\ ((forall i, (1 <= i <= Z.to_nat years)%nat ->
         representable ((1 + base_growth * growth_mul) ^ Z.of_nat i)) ->
      exists df,
        build_scenario_from_base last_revenue base_growth base_margin growth_mul
          margin_delta capex_mul dep_pct wc_pct tax_rate years start_year = Ok df
        /\ forall i, (1 <= i <= Z.to_nat years)%nat ->
             exists revenue ebitda capex,
               cell df "Revenue" i = Some revenue
               /\ cell df "EBITDA" i = Some ebitda
               /\ cell df "Capex" i = Some capex
               /\ revenue == last_revenue * (1 + base_growth * growth_mul) ^ Z.of_nat i
               /\ ebitda == revenue * (base_margin + margin_delta)
               /\ capex == revenue * (capex_mul * 0.06)).
Proof.
  split; [reflexivity|]. intros Hrep.
  unfold build_scenario_from_base. cbv zeta.
  destruct (project_revenue_Ok last_revenue (base_growth * growth_mul) years
              (representable_no_overflow _ _ Hrep)) as [rev Hrev].
  rewrite (build_forecast_Ok _ _ (base_margin + margin_delta) (capex_mul * 0.06)
             dep_pct wc_pct tax_rate _ start_year _ Hrev).
  eexists. split; [reflexivity|]. intros i Hi.
  destruct (project_revenue_row _ _ _ _ i Hrev Hi (Hrep i Hi)) as (r & Hr & Hval).
  pose proof (forecast_table_cells (base_margin + margin_delta) (capex_mul * 0.06)
                dep_pct wc_pct tax_rate years start_year rev i r Hr)
    as (C1 & C2 & _ & _ & _ & C6 & _).
  do 3 eexists. split; [exact C1|]. split; [exact C2|]. split; [exact C6|].
  split; [exact Hval|]. split; reflexivity.
Qed.

Lemma build_scenario_from_base_spec_witness :
  (forall i, (1 <= i <= Z.to_nat 5)%nat ->
     representable ((1 + 0.08 * 1.25) ^ Z.of_nat i))
  /\ exists df,
    build_scenario_from_base 28000 0.08 0.34 1.25 0.02 1.5 0.05 0.01 0.21 5 None
    = Ok df
    /\ (1 <= 1 <= Z.to_nat 5)%nat
    /\ exists capex, cell df "Capex" 1 = Some capex /\ capex == 2772.
Proof.
  assert (Hrep : forall i, (1 <= i <= Z.to_nat 5)%nat ->
                   representable ((1 + 0.08 * 1.25) ^ Z.of_nat i)).
  { intros i Hi. right. each_row i. }
  refine (conj Hrep _).
  destruct (proj2 (build_scenario_from_base_spec 28000 0.08 0.34 1.25 0.02 1.5
                     0.05 0.01 0.21 5 None) Hrep) as (df & Hdf & Hrows).
  assert (Hi : (1 <= 1 <= Z.to_nat 5)%nat) by (vm_compute; lia).
  exists df. refine (conj Hdf (conj Hi _)).
  destruct (Hrows 1%nat Hi) as (revenue & ebitda & capex & _ & _ & Hc & Hr & _ & Hcv).
  exists capex. refine (conj Hc _). rewrite Hcv, Hr. reflexivity.
Defined.




(** ** Monte Carlo driver *)

Lemma sim_bind_Ok {A B} (m : sim A) (f : A -> sim B) (rng rng2 : Generator) (b : B) :
  (m ≫= f) rng = Ok (b, rng2)
  <-> exists a rng1, m rng = Ok (a, rng1) /\ f a rng1 = Ok (b, rng2).
Proof.
  unfold mbind, sim_bind. split.
  - destruct (m rng) as [[a rng1]|e]; [|discriminate]. intros H. now exists a, rng1.
  - intros (a & rng1 & -> & H). exact H.
Qed.


Lemma py_max_lower (c a b : Q) : c <= a -> c <= py_max a b.
Proof.
  intros Hc. unfold py_max. destruct (Qle_bool b a) eqn:E; [assumption|].
  apply Qle_bool_false in E. apply Qle_trans with a; [assumption|].
  now apply Qlt_le_weak.
Qed.

Lemma py_min_upper (c a b : Q) : b <= c -> py_min a b <= c.
Proof.
  intros Hc. unfold py_min. destruct (Qle_bool a b) eqn:E; [|assumption].
  apply Qle_bool_iff in E. now apply Qle_trans with b.
Qed.

Lemma py_min_lower (c a b : Q) : c <= a -> c <= b -> c <= py_min a b.
Proof. intros Ha Hb. unfold py_min. now destruct (Qle_bool a b). Qed.

Section TrialFacts.
Context (base_inputs sigma_inputs : gmap string Q).
Context (years : Z) (start_year : option Z).
Context (wacc_base wacc_sigma terminal_g_base terminal_g_sigma : Q).

#[local] Abbreviation sample_inputs' :=
  (sample_inputs base_inputs sigma_inputs wacc_base wacc_sigma
     terminal_g_base terminal_g_sigma).
#[local] Abbreviation trial_forecast' := (trial_forecast base_inputs years start_year).
#[local] Abbreviation run_trial' :=
  (run_trial base_inputs sigma_inputs years start_year wacc_base wacc_sigma
     terminal_g_base terminal_g_sigma).

Lemma sample_inputs_within_limits (rng rng' : Generator) (p : TrialInputs) :
  sample_inputs' rng = Ok (p, rng') -> within_limits p.
Proof.
  unfold sample_inputs. intros H.
  repeat (apply sim_bind_Ok in H as (? & ? & _ & H)).
  injection H as <- _. unfold within_limits. cbn.
  repeat split;
    repeat first [apply py_max_lower | apply py_min_lower | apply py_min_upper];
    discriminate.
Qed.

(** A completed iteration is the sampling, the forecast and the
    valuation with its fallback, on the same inputs. *)
Lemma run_trial_Ok_inv (rng rng' : Generator) (ev : float) :
  run_trial' rng = Ok (ev, rng') ->
  exists p df,
    sample_inputs' rng = Ok (p, rng')
    /\ trial_forecast' p = Ok df
    /\ ev = trial_value df p.
Proof.
  unfold run_trial. intros H.
  apply sim_bind_Ok in H as (p & rng1 & Hp & H).
  apply sim_bind_Ok in H as (df & rng2 & Hdf & H).
  unfold lift in Hdf. destruct (trial_forecast' p) as [df'|] eqn:E; [|discriminate].
  injection Hdf as <- <-. injection H as <- <-.
  now exists p, df'.
Qed.

(** C5.  In every trial the inputs that come out of the sampling, which
    are those the forecast is built from and valued with, are within the
    safety limits: [ebitda_margin >= -0.5], [capex_pct >= 0],
    [dep_pct >= 0], [wc_pct >= 0], [0 <= tax_rate <= 1], [wacc >= 0.001]. *)
Theorem trial_inputs_clamped (rng : Generator) :
  (forall p rng', sample_inputs' rng = Ok (p, rng') -> within_limits p)
  /\ (forall ev rng', run_trial' rng = Ok (ev, rng') ->
       exists p df,
         sample_inputs' rng = Ok (p, rng')
         /\ trial_forecast' p = Ok df
         /\ ev = trial_value df p
         /\ within_limits p).
Proof.
  split.
  - intros p rng'. apply sample_inputs_within_limits.
  - intros ev rng' H.
    destruct (run_trial_Ok_inv _ _ _ H) as (p & df & Hp & Hdf & Hev).
    exists p, df. repeat split; try assumption;
      apply (sample_inputs_within_limits _ _ _ Hp).
Qed.
End TrialFacts.

Lemma trial_inputs_clamped_witness :
  exists p rng',
    sample_inputs scenario_base {[ "capex_pct"%string := 0.1 ]} 0.075 0.015 0.025 0.005
      ramp_generator = Ok (p, rng')
    /\ within_limits p.
Proof.
  destruct (sample_inputs scenario_base {[ "capex_pct"%string := 0.1 ]} 0.075 0.015
              0.025 0.005 ramp_generator) as [[p rng']|e] eqn:E.
  - exists p, rng'. split; [reflexivity|].
    exact (proj1 (trial_inputs_clamped scenario_base {[ "capex_pct"%string := 0.1 ]}
                    5 None 0.075 0.015 0.025 0.005 ramp_generator) p rng' E).
  - vm_compute in E. discriminate E.
Defined.

Lemma advance_advance (a b : nat) (rng : Generator) :
  advance a (advance b rng) = advance (a + b) rng.
Proof. unfold advance. cbn. f_equal. lia. Qed.

Lemma advance_0 (rng : Generator) : advance 0 rng = rng.
Proof. now destruct rng. Qed.

Lemma rng_normal_Ok (loc scale : Q) (rng : Generator) :
  0 <= scale ->
  rng_normal loc scale rng
  = Ok (loc + scale * variates rng (consumed rng), advance 1 rng).
Proof. intros H. unfold rng_normal. apply Qle_bool_iff in H. now rewrite H. Qed.



(** ** Equal inputs give equal results *)














(** ** The iterations of a run *)

(** Membership of a literal key in [required_fields]. *)
Ltac field_in := unfold required_fields; repeat constructor.

Section Run.
Context (base_inputs sigma_inputs : gmap string Q).
Context (years : Z) (start_year : option Z).
Context (wacc_base wacc_sigma terminal_g_base terminal_g_sigma : Q).
Hypothesis Hbase : has_required_fields base_inputs.
Hypothesis Hdraws :
  Forall (fun s => 0 <= s) (draw_sigmas sigma_inputs wacc_sigma terminal_g_sigma).

#[local] Abbreviation sample_inputs' :=
  (sample_inputs base_inputs sigma_inputs wacc_base wacc_sigma
     terminal_g_base terminal_g_sigma).
#[local] Abbreviation trial_forecast' := (trial_forecast base_inputs years start_year).
#[local] Abbreviation run_trial' :=
  (run_trial base_inputs sigma_inputs years start_year wacc_base wacc_sigma
     terminal_g_base terminal_g_sigma).
#[local] Abbreviation mc_loop' :=
  (mc_loop base_inputs sigma_inputs years start_year wacc_base wacc_sigma
     terminal_g_base terminal_g_sigma).
#[local] Abbreviation drawn_inputs' :=
  (drawn_inputs base_inputs sigma_inputs wacc_base wacc_sigma
     terminal_g_base terminal_g_sigma).

Lemma sample_inputs_Ok (rng : Generator) :
  sample_inputs' rng = Ok (drawn_inputs' rng, advance 8 rng).
Proof using Hbase Hdraws.
  destruct (Hbase "growth") as [g0 Hg]; [field_in|].
  destruct (Hbase "ebitda_margin") as [e0 He]; [field_in|].
  destruct (Hbase "capex_pct") as [c0 Hc]; [field_in|].
  destruct (Hbase "dep_pct") as [d0 Hd]; [field_in|].
  destruct (Hbase "wc_pct") as [w0 Hw]; [field_in|].
  destruct (Hbase "tax_rate") as [t0 Ht]; [field_in|].
  unfold draw_sigmas in Hdraws.
  repeat match goal with
         | H : Forall _ (_ :: _) |- _ => apply Forall_cons in H as [? H]
         end.
  unfold sample_inputs, drawn_inputs, sample_field, mbind, sim_bind, lift, dict_getitem.
  rewrite Hg, He, Hc, Hd, Hw, Ht.
  rewrite !rng_normal_Ok by assumption. reflexivity.
Qed.

Lemma trial_forecast_eq (p : TrialInputs) :
  exists last_revenue,
    base_inputs !! "last_revenue"%string = Some last_revenue
    /\ trial_forecast' p
       = build_forecast last_revenue (t_growth p) (t_ebitda_margin p)
           (t_capex_pct p) (t_dep_pct p) (t_wc_pct p) (t_tax_rate p)
           years start_year.
Proof using Hbase.
  destruct (Hbase "last_revenue") as [r0 Hr]; [field_in|].
  exists r0. split; [assumption|].
  unfold trial_forecast, dict_getitem. now rewrite Hr.
Qed.

(** The forecast of a trial is built exactly when the growth of the trial
    compounds without overflow; otherwise the trial raises
    [OverflowError]. *)
Lemma trial_forecast_Ok_iff (p : TrialInputs) :
  is_Ok (trial_forecast' p) <-> no_overflow (1 + t_growth p) years.
Proof using Hbase.
  destruct (trial_forecast_eq p) as (r0 & _ & ->). split.
  - intros [df Hdf]. apply build_forecast_inv in Hdf as (rev & Hrev & _).
    apply (project_revenue_Ok_iff r0). now exists rev.
  - apply build_forecast_total.
Qed.

(** An iteration draws eight variates, then builds the forecast, which may
    raise, and values it. *)
Lemma run_trial_eq (rng : Generator) :
  run_trial' rng
  = match trial_forecast' (drawn_inputs' rng) with
    | Ok df => Ok (trial_value df (drawn_inputs' rng), advance 8 rng)
    | Raise e => Raise e
    end.
Proof using Hbase Hdraws.
  unfold run_trial, mbind, sim_bind, lift. rewrite sample_inputs_Ok.
  now destruct (trial_forecast' (drawn_inputs' rng)).
Qed.

(** The loop over the trials [k, k+1, ..., k+m-1], when none of their
    forecasts overflows: it completes, fills exactly these positions of
    [vals], each with the value of its own trial, and leaves the others as
    they were. *)
Lemma mc_loop_spec (m : nat) :
  forall (k : nat) (vals : list float) (rng : Generator),
    (k + m <= length vals)%nat ->
    forecasts_in_range base_inputs sigma_inputs years wacc_base wacc_sigma
      terminal_g_base terminal_g_sigma rng m ->
    exists vals',
      mc_loop' (seq k m) vals rng = Ok (vals', advance (8 * m) rng)
      /\ length vals' = length vals
      /\ (forall j, (k <= j < k + m)%nat ->
            exists df,
              trial_forecast' (drawn_inputs' (advance (8 * (j - k)) rng)) = Ok df
              /\ vals' !! j
                 = Some (trial_value df (drawn_inputs' (advance (8 * (j - k)) rng))))
      /\ (forall j, ~ (k <= j < k + m)%nat -> vals' !! j = vals !! j).
Proof using Hbase Hdraws.
  induction m as [|m IH]; intros k vals rng Hlen Hrange.
  - exists vals. cbn [seq mc_loop]. rewrite Nat.mul_0_r, advance_0.
    split; [reflexivity|]. split; [reflexivity|].
    split; [intros j Hj; lia | reflexivity].
  - cbn [seq mc_loop]. unfold mbind, sim_bind. rewrite run_trial_eq.
    destruct (proj2 (trial_forecast_Ok_iff (drawn_inputs' rng))) as [df Hdf].
    { pose proof (Hrange 0%nat ltac:(lia)) as H0.
      now rewrite Nat.mul_0_r, advance_0 in H0. }
    rewrite Hdf.
    destruct (IH (S k) (<[k := trial_value df (drawn_inputs' rng)]> vals)
                (advance 8 rng)) as (vals' & Hrun & Hlen' & Hin & Hout).
    { rewrite length_insert. lia. }
    { intros i Hi. pose proof (Hrange (S i) ltac:(lia)) as Hi'.
      rewrite advance_advance.
      now replace (8 * i + 8)%nat with (8 * S i)%nat by lia. }
    exists vals'. rewrite Hrun, advance_advance, Hlen', length_insert.
    split; [do 2 f_equal; f_equal; lia|]. split; [reflexivity|]. split.
    + intros j Hj. destruct (decide (j = k)) as [-> | Hne].
      * exists df. rewrite Nat.sub_diag, Nat.mul_0_r, advance_0.
        split; [assumption|].
        rewrite Hout by lia. apply list_lookup_insert_eq. lia.
      * destruct (Hin j ltac:(lia)) as (df' & Hdf' & Hj').
        rewrite advance_advance in Hdf', Hj'.
        replace (8 * (j - S k) + 8)%nat with (8 * (j - k))%nat in Hdf', Hj' by lia.
        now exists df'.
    + intros j Hj. rewrite Hout by lia. apply list_lookup_insert_ne. lia.
Qed.


End Run.


Lemma scenario_base_complete : has_required_fields scenario_base.
Proof.
  intros key Hkey. unfold required_fields in Hkey.
  repeat (apply elem_of_cons in Hkey as [-> | Hkey]; [eexists; reflexivity|]).
  now apply elem_of_nil in Hkey.
Qed.

Lemma sigmas_nonneg_draws (sigma_inputs : gmap string Q) (wacc_sigma terminal_g_sigma : Q) :
  sigmas_nonneg sigma_inputs wacc_sigma terminal_g_sigma ->
  Forall (fun s => 0 <= s) (draw_sigmas sigma_inputs wacc_sigma terminal_g_sigma).
Proof.
  intros (Hs & Hw & Hg).
  assert (Hkey : forall key, 0 <= dict_get sigma_inputs key 0).
  { intros key. unfold dict_get. destruct (sigma_inputs !! key) as [v|] eqn:E; simpl.
    - now apply (Hs key).
    - apply Qle_refl. }
  unfold draw_sigmas. repeat constructor; auto.
Qed.





(** ** The degenerate case *)














(** * Part III: further properties of the code *)

(** ** Valuation engine: outcomes of [compute_dcf_value] *)




(** X3.  [compute_dcf_value] raises the missing-column error exactly when
    the table has no FCFF column, whatever the discounting parameters: the
    column is checked before anything else. *)
Theorem compute_dcf_value_missing_column (df : DataFrame) (wacc terminal_g : Q) :
  compute_dcf_value df wacc terminal_g = Raise (ValueError msg_missing_column)
  <-> columns df !! "FCFF"%string = None.
Proof.
  split; [|apply compute_dcf_value_no_column].
  destruct (columns df !! "FCFF"%string) as [fcfs|] eqn:Hcol; [|reflexivity].
  destruct (decide (fcfs = [])) as [-> | Hne].
  - rewrite (compute_dcf_value_empty _ _ _ Hcol). discriminate.
  - destruct (compute_dcf_value_nonempty_cases df fcfs wacc terminal_g Hcol Hne)
      as [(_ & ->) | [(_ & _ & ->) | [(_ & _ & ->) | (_ & _ & v & ->)]]]; discriminate.
Qed.



(** ** Valuation engine: [discount_cash_flows] and [terminal_value_gordon] *)

Lemma fold_left_Qplus_unit_divisors (l dfs : list Q) :
  Forall (fun d => d == 1) dfs -> length dfs = length l ->
  fold_left Qplus (zip_with Qdiv l dfs) 0 == fold_left Qplus l 0.
Proof.
  revert dfs. induction l as [|x l IH]; intros [|d dfs] Hd Hlen;
    try discriminate Hlen; [reflexivity|].
  inversion Hd as [|? ? Hd1 Hd']; subst. simpl.
  rewrite (fold_left_Qplus_acc _ (0 + x / d)), (fold_left_Qplus_acc _ (0 + x)).
  rewrite (IH dfs Hd') by (simpl in Hlen; lia).
  unfold Qdiv. rewrite Hd1. field.
Qed.

Lemma power_of_one (x : Q) (i : Z) : x == 0 -> (1 + x) ^ i == 1.
Proof. intros ->. rewrite Qplus_0_r. apply Qpower_1. Qed.

Lemma power_of_one_in_range (x : Q) (i : Z) : x == 0 -> classify ((1 + x) ^ i) = InRange.
Proof. intros Hx. rewrite (classify_comp _ _ (power_of_one x i Hx)). apply classify_one. Qed.

(** X5.  At a discount rate of zero every discount factor is 1 and the
    present value [discount_cash_flows] returns is the plain sum of the
    cash flows. *)
Theorem discount_cash_flows_zero_rate (fcfs : list Q) (wacc : Q) :
  wacc == 0 ->
  exists pv,
    fst (discount_cash_flows fcfs wacc) = Fin pv
    /\ pv == fold_left Qplus fcfs 0
    /\ length (snd (discount_cash_flows fcfs wacc)) = length fcfs
    /\ Forall (fun d => feq d (Fin 1)) (snd (discount_cash_flows fcfs wacc)).
Proof.
  intros Hw.
  destruct (discount_factors_in_range wacc (length fcfs)) as [Hfac Hnz].
  { intros i _. now apply power_of_one_in_range. }
  unfold discount_cash_flows, np_sum. cbn [fst snd].
  rewrite py_range_from_1, Hfac, zip_with_fmap_r.
  change (zip_with (fun (x : Q) (z : Q) => np_true_divide_by x (Fin z)))
    with (zip_with np_true_divide).
  assert (Hones : Forall (fun d => d == 1)
                    ((fun i : Z => (1 + wacc) ^ i) <$> seqZ 1 (Z.of_nat (length fcfs)))).
  { apply Forall_fmap, Forall_forall. intros i _. simpl. now apply power_of_one. }
  assert (Hlen : length ((fun i : Z => (1 + wacc) ^ i) <$> seqZ 1 (Z.of_nat (length fcfs)))
                 = length fcfs)
    by now rewrite length_fmap, length_seqZ, Nat2Z.id.
  rewrite np_sum_quotients by assumption.
  eexists. split; [reflexivity|]. split; [now apply fold_left_Qplus_unit_divisors|].
  split; [now rewrite length_fmap|].
  apply Forall_fmap. eapply Forall_impl; [exact Hones|]. now intros d Hd.
Qed.

Lemma discount_cash_flows_zero_rate_witness :
  0 == 0
  /\ exists pv, fst (discount_cash_flows [100; 200; 300] 0) = Fin pv /\ pv == 600.
Proof.
  assert (H : 0 == 0) by reflexivity.
  refine (conj H _).
  destruct (discount_cash_flows_zero_rate [100; 200; 300] 0 H) as (pv & Hpv & Hsum & _).
  exists pv. refine (conj Hpv _). rewrite Hsum. reflexivity.
Defined.




(** ** Valuation engine: [wacc_calc] *)

Lemma wacc_calc_Ok (beta rf rm market_debt market_equity : Q)
    (cost_of_debt : option Q) (tax_rate : Q) :
  0 < market_debt + market_equity ->
  wacc_calc beta rf rm market_debt market_equity cost_of_debt tax_rate
  = Ok (market_equity / (market_debt + market_equity) * (rf + beta * (rm - rf))
        + market_debt / (market_debt + market_equity)
          * default default_cost_of_debt cost_of_debt * (1 - tax_rate)).
Proof.
  intros Hpos. unfold wacc_calc.
  rewrite (proj2 (Qle_bool_false _ _) Hpos).
  rewrite !py_truediv_Ok by (intros E; lra). reflexivity.
Qed.

(** X8.  For a firm without debt [wacc_calc] returns the CAPM cost of
    equity [rf + beta * (rm - rf)], and for a firm without equity the
    after-tax cost of debt. *)
Theorem wacc_calc_single_source (beta rf rm market_debt market_equity : Q)
    (cost_of_debt : option Q) (tax_rate : Q) :
  (market_debt == 0 -> 0 < market_equity ->
   exists w, wacc_calc beta rf rm market_debt market_equity cost_of_debt tax_rate = Ok w
             /\ w == rf + beta * (rm - rf))
  /\ (market_equity == 0 -> 0 < market_debt ->
      exists w, wacc_calc beta rf rm market_debt market_equity cost_of_debt tax_rate = Ok w
                /\ w == default 0.035 cost_of_debt * (1 - tax_rate)).
Proof.
  split; intros Hz Hpos.
  - rewrite wacc_calc_Ok by (rewrite Hz; lra).
    eexists. split; [reflexivity|]. rewrite Hz. field. lra.
  - rewrite wacc_calc_Ok by (rewrite Hz; lra).
    eexists. split; [reflexivity|]. rewrite Hz. unfold default_cost_of_debt. field. lra.
Qed.

Lemma wacc_calc_single_source_witness :
  0 == 0 /\ 0 < 300
  /\ exists w, wacc_calc 1.2 0.03 0.08 0 300 None 0.21 = Ok w /\ w == 0.09.
Proof.
  assert (H1 : 0 == 0) by reflexivity.
  assert (H2 : 0 < 300) by reflexivity.
  refine (conj H1 (conj H2 _)).
  destruct (proj1 (wacc_calc_single_source 1.2 0.03 0.08 0 300 None 0.21) H1 H2)
    as (w & Hw & Hval).
  exists w. refine (conj Hw _). rewrite Hval. reflexivity.
Defined.

(** ** Forecast builder: [project_revenue] and [build_forecast] *)

Lemma project_revenue_no_years (last_value growth_rate : Q) (years : Z) :
  (years <= 0)%Z -> project_revenue last_value growth_rate years = Ok [].
Proof.
  intros Hy. unfold project_revenue. rewrite py_range_from_1, seqZ_nil by lia.
  reflexivity.
Qed.

(** X11.  With zero growth every projected revenue equals the last known
    revenue: [project_revenue] returns [years] copies of it, and so does
    the Revenue column of [build_forecast]. *)
Theorem project_revenue_zero_growth (last_revenue growth ebitda_margin capex_pct
    dep_pct wc_pct tax_rate : Q) (years : Z) (start_year : option Z) :
  growth == 0 ->
  exists rev,
    project_revenue last_revenue growth years = Ok rev
    /\ length rev = Z.to_nat years
    /\ Forall (fun r => r == last_revenue) rev
    /\ exists df,
         build_forecast last_revenue growth ebitda_margin capex_pct dep_pct wc_pct
           tax_rate years start_year = Ok df
         /\ columns df !! "Revenue"%string = Some rev.
Proof.
  intros Hg.
  destruct (project_revenue_Ok last_revenue growth years) as [rev Hrev].
  { intros i _. now rewrite power_of_one_in_range. }
  destruct (project_revenue_Ok_inv _ _ _ _ Hrev) as [Hlen Hrows].
  exists rev. split; [exact Hrev|]. split; [assumption|]. split.
  - apply Forall_lookup_2. intros k r Hr.
    pose proof (lookup_lt_Some _ _ _ Hr) as Hk.
    destruct (Hrows (S k) ltac:(lia)) as (power & Hp & Hr').
    replace (S k - 1)%nat with k in Hr' by lia.
    assert (Er : r = last_revenue * power) by congruence.
    assert (Ep : power = (1 + growth) ^ Z.of_nat (S k)).
    { rewrite py_float_pow_in_range in Hp by now apply power_of_one_in_range.
      congruence. }
    rewrite Er, Ep, (power_of_one growth (Z.of_nat (S k)) Hg). ring.
  - rewrite (build_forecast_Ok _ _ ebitda_margin capex_pct dep_pct wc_pct tax_rate
               _ start_year _ Hrev).
    eexists. split; [reflexivity|]. column_lookup.
Qed.

Lemma project_revenue_zero_growth_witness :
  0 == 0
  /\ exists rev,
      project_revenue 28000 0 5 = Ok rev
      /\ length rev = 5%nat
      /\ Forall (fun r => r == 28000) rev.
Proof.
  assert (H : 0 == 0) by reflexivity.
  refine (conj H _).
  destruct (project_revenue_zero_growth 28000 0 0.34 0.06 0.05 0.01 0.21 5 None H)
    as (rev & Hrev & Hlen & Hall & _).
  exists rev. exact (conj Hrev (conj Hlen Hall)).
Defined.

Lemma compute_dcf_value_columns (df df' : DataFrame) (wacc g : Q) :
  columns df' = columns df ->
  compute_dcf_value df' wacc g = compute_dcf_value df wacc g.
Proof. intros H. unfold compute_dcf_value, calc_free_cash_flow. now rewrite H. Qed.

(** X13.  For a horizon [years <= 0], [build_forecast] returns a table with
    no row, each of the eight columns being empty, and [compute_dcf_value]
    on that table raises [IndexError] whatever the discounting
    parameters. *)
Theorem build_forecast_no_rows (last_revenue growth ebitda_margin capex_pct dep_pct
    wc_pct tax_rate : Q) (years : Z) (start_year : option Z) :
  (years <= 0)%Z ->
  exists df,
    build_forecast last_revenue growth ebitda_margin capex_pct dep_pct wc_pct
      tax_rate years start_year = Ok df
    /\ index df = []
    /\ dom (columns df) = forecast_columns
    /\ (forall name col, columns df !! name = Some col -> col = [])
    /\ (forall wacc terminal_g,
          compute_dcf_value df wacc terminal_g = Raise IndexError).
Proof.
  intros Hy.
  rewrite (build_forecast_Ok _ _ ebitda_margin capex_pct dep_pct wc_pct tax_rate
             _ start_year _ (project_revenue_no_years last_revenue growth years Hy)).
  eexists. split; [reflexivity|]. unfold forecast_table. cbv zeta.
  cbn [index columns series_mul series_sub series_add fmap list_fmap zip_with length].
  split; [|split; [|split]].
  - destruct start_year.
    + rewrite py_range_from_1, seqZ_nil by lia. reflexivity.
    + reflexivity.
  - rewrite !dom_insert_L, dom_empty_L. unfold forecast_columns. set_solver.
  - intros name col Hc.
    repeat (apply lookup_insert_Some in Hc as [[_ <-] | [_ Hc]]; [reflexivity|]).
    rewrite lookup_empty in Hc. discriminate Hc.
  - intros wacc terminal_g. apply compute_dcf_value_empty. cbn [columns].
    rewrite ?lookup_insert_ne by discriminate. apply lookup_insert_eq.
Qed.

Lemma build_forecast_no_rows_witness :
  (0 <= 0)%Z
  /\ exists df,
      build_forecast 28000 0.08 0.34 0.06 0.05 0.01 0.21 0 (Some 2024%Z) = Ok df
      /\ index df = []
      /\ compute_dcf_value df 0.075 0.025 = Raise IndexError.
Proof.
  assert (H : (0 <= 0)%Z) by discriminate.
  refine (conj H _).
  destruct (build_forecast_no_rows 28000 0.08 0.34 0.06 0.05 0.01 0.21 0
              (Some 2024%Z) H) as (df & Hdf & Hidx & _ & _ & Hev).
  exists df. exact (conj Hdf (conj Hidx (Hev 0.075 0.025))).
Defined.

(** X14.  [start_year] only labels the rows: [build_forecast] with a start
    year raises what it raises without one, and otherwise returns a table
    with the same columns and as many labels, on which
    [compute_dcf_value] gives the same result. *)
Theorem build_forecast_start_year_labels (last_revenue growth ebitda_margin
    capex_pct dep_pct wc_pct tax_rate : Q) (years start_year : Z) :
  result_rel
    (fun df df' =>
       columns df' = columns df
       /\ length (index df') = length (index df)
       /\ forall wacc terminal_g,
            compute_dcf_value df' wacc terminal_g = compute_dcf_value df wacc terminal_g)
    (build_forecast last_revenue growth ebitda_margin capex_pct dep_pct wc_pct
       tax_rate years None)
    (build_forecast last_revenue growth ebitda_margin capex_pct dep_pct wc_pct
       tax_rate years (Some start_year)).
Proof.
  destruct (project_revenue last_revenue growth years) as [rev|e] eqn:Hrev.
  - rewrite !(build_forecast_Ok _ _ ebitda_margin capex_pct dep_pct wc_pct tax_rate
                _ _ _ Hrev).
    cbn [result_rel]. split; [reflexivity|]. split.
    + cbn [index forecast_table]. rewrite length_fmap, py_range_from_1, length_seqZ.
      unfold py_range. rewrite length_seqZ.
      rewrite (proj1 (project_revenue_Ok_inv _ _ _ _ Hrev)). lia.
    + intros wacc terminal_g. now apply compute_dcf_value_columns.
  - unfold build_forecast. rewrite Hrev. reflexivity.
Qed.


(** ** Forecast builder: [compute_cagr] *)

Section CagrFacts.
Context {V : Type} (float_pow : Q -> Q -> result V) (minus_one : V -> V).

Lemma compute_cagr_endpoints (start end_ : Q) (middle : list Q) (periods : Z) :
  compute_cagr float_pow minus_one (start :: middle ++ [end_]) periods
  = if Qle_bool start 0 then Raise (ValueError msg_start_not_positive)
    else
      ratio ← py_truediv end_ start;
      exponent ← py_truediv 1.0 (inject_Z periods);
      power ← float_pow ratio exponent;
      Ok (minus_one power).
Proof.
  unfold compute_cagr. cbv zeta.
  rewrite decide_False by (cbn [length]; rewrite length_app; simpl; lia).
  cbn [getitem_first]. bind_step.
  unfold getitem_last. rewrite last_cons, last_snoc. reflexivity.
Qed.

Lemma two_values_inv (values : list Q) :
  (2 <= length values)%nat ->
  exists start middle end_, values = start :: middle ++ [end_].
Proof.
  intros Hlen. destruct values as [|start rest]; [simpl in Hlen; lia|].
  destruct (last rest) as [end_|] eqn:E.
  - apply last_Some in E as [middle ->]. now exists start, middle, end_.
  - apply last_None in E as ->. simpl in Hlen. lia.
Qed.

(** X17.  [compute_cagr] checks its input in this order, before any
    arithmetic: fewer than two values raise the too-few-values error,
    whatever [periods]; otherwise a first value [<= 0] raises the
    start-not-positive error, whatever [periods]; otherwise [periods = 0]
    raises [ZeroDivisionError]. *)
Theorem compute_cagr_guards (values : list Q) (periods : Z) :
  ((length values < 2)%nat ->
   compute_cagr float_pow minus_one values periods
   = Raise (ValueError msg_too_few_values))
  /\ (forall start, (2 <= length values)%nat -> head values = Some start ->
        start <= 0 ->
        compute_cagr float_pow minus_one values periods
        = Raise (ValueError msg_start_not_positive))
  /\ (forall start, (2 <= length values)%nat -> head values = Some start ->
        0 < start -> periods = 0%Z ->
        compute_cagr float_pow minus_one values periods = Raise ZeroDivisionError).
Proof.
  split; [|split].
  - intros Hlen. unfold compute_cagr. cbv zeta. now rewrite decide_True.
  - intros start Hlen Hhead Hle.
    destruct (two_values_inv values Hlen) as (s & middle & e & ->).
    injection Hhead as ->. rewrite compute_cagr_endpoints.
    apply Qle_bool_iff in Hle. now rewrite Hle.
  - intros start Hlen Hhead Hpos ->.
    destruct (two_values_inv values Hlen) as (s & middle & e & ->).
    injection Hhead as ->. rewrite compute_cagr_endpoints.
    rewrite (proj2 (Qle_bool_false _ _) Hpos).
    rewrite (py_truediv_Ok e start) by (intros E; lra). bind_step.
    rewrite py_truediv_zero; reflexivity.
Qed.

(** X18.  [compute_cagr] reads only the first and the last value: the
    values in between do not change its result, whatever it is. *)
Theorem compute_cagr_ignores_middle (start end_ : Q) (middle : list Q) (periods : Z) :
  compute_cagr float_pow minus_one (start :: middle ++ [end_]) periods
  = compute_cagr float_pow minus_one [start; end_] periods.
Proof.
  rewrite compute_cagr_endpoints.
  change [start; end_] with (start :: [] ++ [end_]).
  now rewrite compute_cagr_endpoints.
Qed.
End CagrFacts.

Lemma compute_cagr_guards_witness :
  (length [100] < 2)%nat
  /\ compute_cagr (fun x _ => Ok x) (fun v => v - 1) [100] 0
     = Raise (ValueError msg_too_few_values)
  /\ ((2 <= length [0; 100])%nat /\ head [0; 100] = Some 0 /\ 0 <= 0)
  /\ compute_cagr (fun x _ => Ok x) (fun v => v - 1) [0; 100] 0
     = Raise (ValueError msg_start_not_positive)
  /\ ((2 <= length [50; 100])%nat /\ head [50; 100] = Some 50 /\ 0 < 50)
  /\ compute_cagr (fun x _ => Ok x) (fun v => v - 1) [50; 100] 0
     = Raise ZeroDivisionError.
Proof.
  assert (H1 : (length [100] < 2)%nat) by (simpl; lia).
  assert (H2 : (2 <= length [0; 100])%nat) by (simpl; lia).
  assert (H3 : (2 <= length [50; 100])%nat) by (simpl; lia).
  assert (H4 : 0 <= 0) by discriminate.
  assert (H5 : 0 < 50) by reflexivity.
  refine (conj H1 (conj _ (conj (conj H2 (conj eq_refl H4))
            (conj _ (conj (conj H3 (conj eq_refl H5)) _))))).
  - exact (proj1 (compute_cagr_guards (fun x _ => Ok x) (fun v => v - 1) [100] 0) H1).
  - exact (proj1 (proj2 (compute_cagr_guards (fun x _ => Ok x) (fun v => v - 1)
                           [0; 100] 0)) 0 H2 eq_refl H4).
  - exact (proj2 (proj2 (compute_cagr_guards (fun x _ => Ok x) (fun v => v - 1)
                           [50; 100] 0)) 50 H3 eq_refl H5 eq_refl).
Defined.

(** ** Monte Carlo driver: when a run returns and what it raises *)

Section ReturnFacts.
Context (base_inputs sigma_inputs : gmap string Q).
Context (years : Z) (start_year : option Z).
Context (wacc_base wacc_sigma terminal_g_base terminal_g_sigma : Q).

#[local] Abbreviation sample_inputs' :=
  (sample_inputs base_inputs sigma_inputs wacc_base wacc_sigma
     terminal_g_base terminal_g_sigma).
#[local] Abbreviation run_trial' :=
  (run_trial base_inputs sigma_inputs years start_year wacc_base wacc_sigma
     terminal_g_base terminal_g_sigma).
#[local] Abbreviation mc_loop' :=
  (mc_loop base_inputs sigma_inputs years start_year wacc_base wacc_sigma
     terminal_g_base terminal_g_sigma).
#[local] Abbreviation draws_valid :=
  (Forall (fun s => 0 <= s) (draw_sigmas sigma_inputs wacc_sigma terminal_g_sigma)).




End ReturnFacts.

(** The distribution of a run and the value of each of its trials. *)
Lemma run_mc_simulation_entries (n_sims : Z)
    (base_inputs sigma_inputs : gmap string Q) (years : Z) (start_year : option Z)
    (wacc_base wacc_sigma terminal_g_base terminal_g_sigma : Q) (rng : Generator) :
  (1 <= n_sims)%Z ->
  has_required_fields base_inputs ->
  Forall (fun s => 0 <= s) (draw_sigmas sigma_inputs wacc_sigma terminal_g_sigma) ->
  forecasts_in_range base_inputs sigma_inputs years wacc_base wacc_sigma
    terminal_g_base terminal_g_sigma rng (Z.to_nat n_sims) ->
  exists vals,
    run_mc_simulation n_sims base_inputs sigma_inputs years start_year
      wacc_base wacc_sigma terminal_g_base terminal_g_sigma rng = Ok vals
    /\ length vals = Z.to_nat n_sims
    /\ forall i, (i < Z.to_nat n_sims)%nat ->
         exists df fcfs,
           columns df !! "FCFF"%string = Some fcfs
           /\ length fcfs = Z.to_nat years
           /\ vals !! i
              = Some (trial_value df
                        (drawn_inputs base_inputs sigma_inputs wacc_base wacc_sigma
                           terminal_g_base terminal_g_sigma (advance (8 * i) rng))).
Proof.
  intros Hn Hbase Hdraws Hrange. unfold run_mc_simulation. rewrite decide_False by lia.
  destruct (mc_loop_spec base_inputs sigma_inputs years start_year wacc_base
              wacc_sigma terminal_g_base terminal_g_sigma Hbase Hdraws
              (Z.to_nat n_sims) 0 (replicate (Z.to_nat n_sims) (Fin 0)) rng)
    as (vals & -> & Hlen & Hin & _); [rewrite length_replicate; lia | assumption |].
  rewrite length_replicate in Hlen.
  exists vals. split; [reflexivity|]. split; [assumption|].
  intros i Hi. destruct (Hin i ltac:(lia)) as (df & Hdf & Hval).
  rewrite Nat.sub_0_r in Hdf, Hval.
  destruct (trial_forecast_eq base_inputs years start_year Hbase
              (drawn_inputs base_inputs sigma_inputs wacc_base wacc_sigma
                 terminal_g_base terminal_g_sigma (advance (8 * i) rng)))
    as (r0 & _ & Hf).
  rewrite Hf in Hdf. apply build_forecast_fcff in Hdf as (rev & _ & Hcol & Hlen').
  exists df. eexists. split; [exact Hcol|]. split; [now rewrite length_fmap|assumption].
Qed.





(** ** Monte Carlo driver: edge cases of a run *)

(** X19.  With [n_sims = 0], [run_mc_simulation] returns the empty
    distribution without reading its configuration (a missing field or a
    negative standard deviation goes unnoticed); with [n_sims < 0] it
    raises numpy's [ValueError]. *)
Theorem run_mc_simulation_no_trials (n_sims : Z)
    (base_inputs sigma_inputs : gmap string Q) (years : Z) (start_year : option Z)
    (wacc_base wacc_sigma terminal_g_base terminal_g_sigma : Q) (rng : Generator) :
  (n_sims <= 0)%Z ->
  run_mc_simulation n_sims base_inputs sigma_inputs years start_year
    wacc_base wacc_sigma terminal_g_base terminal_g_sigma rng
  = if decide (n_sims = 0)%Z then Ok []
    else Raise (ValueError msg_negative_dimensions).
Proof.
  intros Hn. unfold run_mc_simulation.
  destruct (decide (n_sims = 0)%Z) as [-> | Hne].
  - reflexivity.
  - now rewrite decide_True by lia.
Qed.

Lemma run_mc_simulation_no_trials_witness :
  (0 <= 0)%Z
  /\ run_mc_simulation 0 ∅ {[ "growth"%string := -1 ]} 5 None 0.075 (-1) 0.025 0.005
       ramp_generator = Ok [].
Proof.
  assert (H : (0 <= 0)%Z) by discriminate.
  exact (conj H (run_mc_simulation_no_trials 0 ∅ {[ "growth"%string := -1 ]} 5 None
                   0.075 (-1) 0.025 0.005 ramp_generator H)).
Defined.

Lemma count_valid_all_nan (n : nat) : count_valid (replicate n NaN) = 0%nat.
Proof.
  unfold count_valid. induction n as [|n IH]; [reflexivity|].
  cbn [replicate]. rewrite filter_cons_False by (simpl; congruence). exact IH.
Qed.

Lemma no_overflow_no_years (x : Q) (years : Z) : (years <= 0)%Z -> no_overflow x years.
Proof. intros Hy i Hi. lia. Qed.

(** X21.  With a horizon [years <= 0] every trial of a run fails in the
    valuation: the distribution [run_mc_simulation] returns consists of
    [n_sims] sentinels and has no valid entry. *)
Theorem run_mc_simulation_no_horizon (n_sims : Z)
    (base_inputs sigma_inputs : gmap string Q) (years : Z) (start_year : option Z)
    (wacc_base wacc_sigma terminal_g_base terminal_g_sigma : Q) (rng : Generator) :
  (1 <= n_sims)%Z ->
  has_required_fields base_inputs ->
  sigmas_nonneg sigma_inputs wacc_sigma terminal_g_sigma ->
  (years <= 0)%Z ->
  run_mc_simulation n_sims base_inputs sigma_inputs years start_year
    wacc_base wacc_sigma terminal_g_base terminal_g_sigma rng
  = Ok (replicate (Z.to_nat n_sims) NaN)
  /\ count_valid (replicate (Z.to_nat n_sims) NaN) = 0%nat.
Proof.
  intros Hn Hbase Hsigma Hy. split; [|apply count_valid_all_nan].
  destruct (run_mc_simulation_entries n_sims base_inputs sigma_inputs years start_year
              wacc_base wacc_sigma terminal_g_base terminal_g_sigma rng Hn Hbase
              (sigmas_nonneg_draws _ _ _ Hsigma))
    as (vals & -> & Hlen & Hin).
  { intros i _. now apply no_overflow_no_years. }
  f_equal. apply list_eq. intros i.
  destruct (decide (i < Z.to_nat n_sims)%nat) as [Hi | Hi].
  - rewrite lookup_replicate_2 by assumption.
    destruct (Hin i Hi) as (df & fcfs & Hcol & Hlen' & ->). f_equal.
    assert (fcfs = []) as -> by (apply length_zero_iff_nil; lia).
    unfold trial_value. now rewrite (compute_dcf_value_empty _ _ _ Hcol).
  - rewrite !lookup_ge_None_2; [reflexivity| |]; rewrite ?length_replicate; lia.
Qed.

Lemma run_mc_simulation_no_horizon_witness :
  (1 <= 3)%Z /\ has_required_fields scenario_base /\ sigmas_nonneg ∅ 0.015 0.005
  /\ (0 <= 0)%Z
  /\ run_mc_simulation 3 scenario_base ∅ 0 None 0.075 0.015 0.025 0.005 ramp_generator
     = Ok [NaN; NaN; NaN].
Proof.
  assert (H1 : (1 <= 3)%Z) by discriminate.
  assert (H3 : sigmas_nonneg ∅ 0.015 0.005).
  { split; [|split; discriminate]. intros key v Hv. rewrite lookup_empty in Hv.
    discriminate Hv. }
  assert (H4 : (0 <= 0)%Z) by discriminate.
  refine (conj H1 (conj scenario_base_complete (conj H3 (conj H4 _)))).
  exact (proj1 (run_mc_simulation_no_horizon 3 scenario_base ∅ 0 None 0.075 0.015
                  0.025 0.005 ramp_generator H1 scenario_base_complete H3 H4)).
Defined.



(** ** Monte Carlo driver: the start year *)

Lemma trial_value_start_year (base_inputs : gmap string Q) (years : Z)
    (s1 s2 : option Z) (p : TrialInputs) :
  match trial_forecast base_inputs years s1 p, trial_forecast base_inputs years s2 p with
  | Ok df1, Ok df2 => trial_value df1 p = trial_value df2 p
  | Raise e1, Raise e2 => e1 = e2
  | _, _ => False
  end.
Proof.
  unfold trial_forecast, mbind, result_bind, dict_getitem.
  destruct (base_inputs !! "last_revenue"%string) as [r0|]; [|reflexivity].
  destruct (project_revenue r0 (t_growth p) years) as [rev|e] eqn:Hrev.
  - rewrite !(build_forecast_Ok _ _ _ _ _ _ _ _ _ _ Hrev). unfold trial_value.
    now erewrite compute_dcf_value_columns.
  - unfold build_forecast. rewrite Hrev. reflexivity.
Qed.

Lemma run_trial_start_year (base_inputs sigma_inputs : gmap string Q) (years : Z)
    (s1 s2 : option Z) (wacc_base wacc_sigma terminal_g_base terminal_g_sigma : Q)
    (rng : Generator) :
  run_trial base_inputs sigma_inputs years s1 wacc_base wacc_sigma terminal_g_base
    terminal_g_sigma rng
  = run_trial base_inputs sigma_inputs years s2 wacc_base wacc_sigma terminal_g_base
      terminal_g_sigma rng.
Proof.
  unfold run_trial, mbind, sim_bind.
  destruct (sample_inputs _ _ _ _ _ _ rng) as [[p rng1]|e]; [|reflexivity].
  pose proof (trial_value_start_year base_inputs years s1 s2 p) as H.
  unfold lift.
  destruct (trial_forecast base_inputs years s1 p),
           (trial_forecast base_inputs years s2 p); try contradiction.
  - unfold mret, sim_ret. now rewrite H.
  - now rewrite H.
Qed.

Lemma mc_loop_start_year (base_inputs sigma_inputs : gmap string Q) (years : Z)
    (s1 s2 : option Z) (wacc_base wacc_sigma terminal_g_base terminal_g_sigma : Q)
    (trials : list nat) :
  forall (vals : list float) (rng : Generator),
    mc_loop base_inputs sigma_inputs years s1 wacc_base wacc_sigma terminal_g_base
      terminal_g_sigma trials vals rng
    = mc_loop base_inputs sigma_inputs years s2 wacc_base wacc_sigma terminal_g_base
        terminal_g_sigma trials vals rng.
Proof.
  induction trials as [|i trials IH]; intros vals rng; [reflexivity|].
  cbn [mc_loop]. unfold mbind, sim_bind.
  rewrite (run_trial_start_year _ _ _ s1 s2).
  destruct (run_trial _ _ _ s2 _ _ _ _ rng) as [[ev rng1]|e]; [apply IH|reflexivity].
Qed.

(** X22.  [start_year] has no effect on a run: [run_mc_simulation] returns
    the same distribution, or raises the same error, for every start
    year. *)
Theorem run_mc_simulation_start_year (n_sims : Z)
    (base_inputs sigma_inputs : gmap string Q) (years : Z) (s1 s2 : option Z)
    (wacc_base wacc_sigma terminal_g_base terminal_g_sigma : Q) (rng : Generator) :
  run_mc_simulation n_sims base_inputs sigma_inputs years s1
    wacc_base wacc_sigma terminal_g_base terminal_g_sigma rng
  = run_mc_simulation n_sims base_inputs sigma_inputs years s2
      wacc_base wacc_sigma terminal_g_base terminal_g_sigma rng.
Proof.
  unfold run_mc_simulation. destruct (decide (n_sims < 0)%Z); [reflexivity|].
  now rewrite (mc_loop_start_year _ _ _ s1 s2).
Qed.

(** ** Dashboard statistics: tail mean and probability above market *)

#[global] Instance fle_total : Total fle.
Proof.
  intros x y. unfold fle.
  destruct x as [a| | |], y as [b| | |]; simpl; auto.
  destruct (Qle_bool a b) eqn:E; [now left|]. right.
  apply Qle_bool_false in E. apply Qle_bool_iff. now apply Qlt_le_weak.
Qed.

#[global] Instance fle_trans : Transitive fle.
Proof.
  intros x y z. unfold fle.
  destruct x as [a| | |], y as [b| | |], z as [c| | |]; simpl; try congruence.
  rewrite !Qle_bool_iff. apply Qle_trans.
Qed.

Lemma fle_Fin (a b : Q) : fle (Fin a) (Fin b) <-> a <= b.
Proof. unfold fle. simpl. apply Qle_bool_iff. Qed.

Lemma isfinite_Fin (v : float) : isfinite v = true -> v = Fin (fval v).
Proof. destruct v; simpl; congruence. Qed.

Lemma np_sum_finite_values (l : list float) (acc : Q) :
  Forall (fun v => isfinite v = true) l ->
  fold_left fadd l (Fin acc) = Fin (fold_left Qplus (fval <$> l) acc).
Proof.
  intros Hall. revert acc. induction Hall as [|v l Hv _ IH]; intros acc; [reflexivity|].
  rewrite (isfinite_Fin v Hv). simpl. apply IH.
Qed.

Lemma fold_left_Qsum (l : list Q) : fold_left Qplus l 0 == Qsum l.
Proof.
  induction l as [|x l IH]; [reflexivity|]. simpl.
  rewrite fold_left_Qplus_acc, IH. ring.
Qed.

(** The number of entries of a list, as a rational. *)
#[local] Abbreviation count l := (inject_Z (Z.of_nat (length l))).

Lemma count_pos {A} (l : list A) : l <> [] -> 0 < count l.
Proof.
  intros Hne. destruct l; [congruence|].
  change 0 with (inject_Z 0). rewrite <- Zlt_Qlt. simpl length. lia.
Qed.

Lemma count_app {A} (l k : list A) : count (l ++ k) == count l + count k.
Proof. now rewrite length_app, Nat2Z.inj_add, inject_Z_plus. Qed.

Lemma np_mean_finite (l : list float) :
  l <> [] -> Forall (fun v => isfinite v = true) l ->
  exists m, np_mean l = Fin m /\ m == Qsum (fval <$> l) / count l.
Proof.
  intros Hne Hall. unfold np_mean, np_sum. rewrite (np_sum_finite_values _ _ Hall).
  cbn [np_divide]. pose proof (count_pos l Hne) as Hpos.
  rewrite np_true_divide_finite by (intros E; lra).
  eexists. split; [reflexivity|]. now rewrite fold_left_Qsum.
Qed.

Lemma count_cons {A} (x : A) (l : list A) : count (x :: l) == 1 + count l.
Proof. change (x :: l) with ([x] ++ l). now rewrite count_app. Qed.

Section TailMean.
Context (ev_eur : list float).
Hypothesis Hvalid : valid_values ev_eur <> [].
Hypothesis Hfinite : Forall (fun v => isfinite v = true) (valid_values ev_eur).

#[local] Abbreviation clean := (valid_values ev_eur).
#[local] Abbreviation k := (Nat.max 1 (length clean / 20)).

Lemma sorted_clean :
  np_sort clean ≡ₚ clean
  /\ StronglySorted fle (np_sort clean)
  /\ Forall (fun v => isfinite v = true) (np_sort clean)
  /\ np_sort clean <> [].
Proof using Hvalid Hfinite.
  assert (Hperm : np_sort clean ≡ₚ clean) by apply merge_sort_Permutation.
  split; [assumption|]. split; [apply StronglySorted_merge_sort; apply _|].
  split; [now rewrite Hperm|].
  intros E. rewrite E in Hperm. symmetry in Hperm.
  apply Permutation_nil_r in Hperm. contradiction.
Qed.

(** X26.  With fewer than 40 valid entries, all finite, the tail mean
    [cvar5] is the smallest valid entry. *)
Theorem cvar5_small_sample :
  (length (valid_values ev_eur) < 40)%nat ->
  exists c,
    cvar5 ev_eur = Fin c
    /\ (exists q, Fin q ∈ valid_values ev_eur /\ c == q)
    /\ (forall q, Fin q ∈ valid_values ev_eur -> c <= q).
Proof using Hvalid Hfinite.
  intros Hlen. destruct sorted_clean as (Hperm & Hsorted & Hfin & Hne).
  assert (Hk : k = 1%nat).
  { assert (length clean / 20 < 2)%nat by (apply Nat.Div0.div_lt_upper_bound; lia). lia. }
  unfold cvar5. cbv zeta. rewrite Hk.
  destruct (np_sort clean) as [|x l] eqn:E; [congruence|].
  apply Forall_cons in Hfin as [Fx Fl]. rewrite (isfinite_Fin x Fx) in *.
  cbn [take]. exists ((0 + fval x) / inject_Z (Z.of_nat 1)). split; [reflexivity|].
  assert (Hc : (0 + fval x) / inject_Z (Z.of_nat 1) == fval x) by (simpl; field).
  split.
  - exists (fval x). split; [|exact Hc]. rewrite <- Hperm. left.
  - intros q Hq. rewrite Hc. rewrite <- Hperm in Hq.
    apply elem_of_cons in Hq as [[= ->] | Hq]; [apply Qle_refl|].
    apply StronglySorted_cons in Hsorted as [Hhd _].
    apply fle_Fin. exact (proj1 (Forall_forall _ _) Hhd _ Hq).
Qed.
End TailMean.

Lemma cvar5_small_sample_witness :
  valid_values [Fin 3; NaN; Fin 1; Fin 2] <> []
  /\ Forall (fun v => isfinite v = true) (valid_values [Fin 3; NaN; Fin 1; Fin 2])
  /\ (length (valid_values [Fin 3; NaN; Fin 1; Fin 2]) < 40)%nat
  /\ exists c, cvar5 [Fin 3; NaN; Fin 1; Fin 2] = Fin c /\ c <= 2.
Proof.
  assert (H1 : valid_values [Fin 3; NaN; Fin 1; Fin 2] <> []) by discriminate.
  assert (H2 : Forall (fun v => isfinite v = true)
                 (valid_values [Fin 3; NaN; Fin 1; Fin 2]))
    by (repeat constructor).
  assert (H3 : (length (valid_values [Fin 3; NaN; Fin 1; Fin 2]) < 40)%nat)
    by (vm_compute; lia).
  refine (conj H1 (conj H2 (conj H3 _))).
  destruct (cvar5_small_sample [Fin 3; NaN; Fin 1; Fin 2] H1 H2 H3) as (c & Hc & _ & Hmin).
  exists c. refine (conj Hc _). apply Hmin. vm_compute.
  apply list_elem_of_further, list_elem_of_further, list_elem_of_here.
Defined.

Lemma valid_values_all (l : list float) :
  Forall (fun v => isnan v = false) l -> valid_values l = l.
Proof.
  unfold valid_values. induction 1 as [|v l Hv _ IH]; [reflexivity|].
  rewrite filter_cons_True by assumption. now rewrite IH.
Qed.

Lemma Qsum_unit_bounds (l : list Q) :
  Forall (fun q => 0 <= q <= 1) l -> 0 <= Qsum l <= count l.
Proof.
  induction 1 as [|q l [Hq0 Hq1] _ [IH0 IH1]].
  - change (0 <= 0 <= 0). split; apply Qle_refl.
  - rewrite count_cons. cbn [Qsum foldr]. fold (Qsum l). split; lra.
Qed.

(** X27.  On a distribution with at least one valid entry the probability
    [prob_above] of a per-share value above the market price is a number
    between 0 and 1, whatever the share count (zero included) and the
    market price. *)
Theorem prob_above_bounds (ev_eur : list float) (shares_units market_price : Q) :
  valid_values ev_eur <> [] ->
  exists r, prob_above ev_eur shares_units market_price = Fin r /\ 0 <= r <= 1.
Proof.
  intros Hvalid. unfold prob_above. cbv zeta.
  set (flags := (fun v => astype_float (np_greater v market_price))
                  <$> ((fun v => np_divide v shares_units) <$> valid_values ev_eur)).
  assert (Hflags : Forall (fun v => isnan v = false /\ isfinite v = true
                                    /\ 0 <= fval v <= 1) flags).
  { unfold flags. apply Forall_fmap, Forall_forall. intros v _. simpl.
    destruct (np_greater v market_price); simpl; repeat split; discriminate. }
  assert (Hne : flags <> []).
  { unfold flags. intros E. apply fmap_nil_inv, fmap_nil_inv in E. contradiction. }
  unfold np_nanmean.
  rewrite valid_values_all by (eapply Forall_impl; [exact Hflags|]; now intros v [? _]).
  destruct (np_mean_finite flags Hne) as (r & Hr & Hrval).
  { eapply Forall_impl; [exact Hflags|]. now intros v (_ & ? & _). }
  exists r. split; [assumption|]. rewrite Hrval.
  pose proof (count_pos flags Hne) as Hpos.
  assert (Hbounds : 0 <= Qsum (fval <$> flags) <= count (fval <$> flags)).
  { apply Qsum_unit_bounds, Forall_fmap. eapply Forall_impl; [exact Hflags|].
    now intros v (_ & _ & ?). }
  rewrite length_fmap in Hbounds. destruct Hbounds as [H0 H1]. split.
  - apply Qle_shift_div_l; [assumption|]. lra.
  - apply Qle_shift_div_r; [assumption|]. lra.
Qed.

Lemma prob_above_bounds_witness :
  valid_values [Fin 3; NaN; Fin 1; Fin 2] <> []
  /\ exists r, prob_above [Fin 3; NaN; Fin 1; Fin 2] 0 1.5 = Fin r /\ 0 <= r <= 1.
Proof.
  assert (H : valid_values [Fin 3; NaN; Fin 1; Fin 2] <> []) by discriminate.
  exact (conj H (prob_above_bounds [Fin 3; NaN; Fin 1; Fin 2] 0 1.5 H)).
Defined.
